(** * Metadata merging (backend/merge_data_files.py)

    A shallow embedding of the extraction pipeline of the repository:
    the path walker [traverse_keys], the mapping evaluator [extract], the
    per-kind adapter [extract_data], the folder pass
    [process_files_in_folder] and the driver [main], followed by the
    properties the specification states about them. *)

From Stdlib Require Import ZArith Ascii String List Floats.PrimFloat Permutation.
From stdpp Require Import gmap strings list.

Set Warnings "-register-all,-clear-no-such-hyp".

(** ** Python values *)

(** What [json.load] and [yaml.safe_load] return: [None], booleans, numbers,
    strings, lists and dicts.  A dict keeps its insertion order, so it is an
    association list; its keys are strings, as in every JSON object.  (YAML
    timestamps, binary data, sets and mappings keyed by something else than
    a string are left out.) *)
Inductive val : Type :=
| VNone
| VBool (b : bool)
| VInt (z : Z)
| VFloat (f : float)
| VStr (s : string)
| VList (l : list val)
| VDict (m : list (string * val)).

Abbreviation dict := (list (string * val)).

(** Truth value of a Python object ([bool(v)]). *)
Definition truthy (v : val) : bool :=
  match v with
  | VNone => false
  | VBool b => b
  | VInt z => negb (z =? 0)%Z
  | VFloat f => negb (PrimFloat.eqb f 0%float)
  | VStr s => negb (String.eqb s "")
  | VList l => match l with [] => false | _ :: _ => true end
  | VDict m => match m with [] => false | _ :: _ => true end
  end.

(** [a or b] *)
Definition py_or (a b : val) : val := if truthy a then a else b.

Definition isinstance_list (v : val) : bool :=
  match v with VList _ => true | _ => false end.

Definition isinstance_dict (v : val) : bool :=
  match v with VDict _ => true | _ => false end.

(** [v == "lit"] for a string literal: only an equal string compares equal. *)
Definition eq_str (v : val) (lit : string) : bool :=
  match v with VStr s => String.eqb s lit | _ => false end.

(** ** Exceptions *)

Inductive exn : Type :=
| AttributeError   (* [.get] on an object that has none *)
| TypeError        (* iterating or indexing a scalar *)
| IndexError       (* [l[0]] on an empty sequence *)
| KeyError         (* [d[k]] on a dict without [k] *)
| ParseError       (* raised by the YAML or JSON loader *)
| OSError.         (* raised by [open] *)

Inductive res (A : Type) : Type :=
| Ok (a : A)
| Raise (e : exn).
Arguments Ok {A} a.
Arguments Raise {A} e.

Global Instance res_bind : MBind res := λ A B f m,
  match m with Ok a => f a | Raise e => Raise e end.
Global Instance res_fmap : FMap res := λ A B f m,
  match m with Ok a => Ok (f a) | Raise e => Raise e end.

Definition returns {A} (m : res A) : Prop := ∃ a, m = Ok a.
Definition raises {A} (m : res A) : Prop := ∃ e, m = Raise e.

(** ** Association lists *)

Fixpoint assoc_get {A} (m : list (string * A)) (k : string) : option A :=
  match m with
  | [] => None
  | (k', v) :: m' => if String.eqb k' k then Some v else assoc_get m' k
  end.

Definition keys {A} (m : list (string * A)) : list string := m.*1.

(** [d[k] = v]: overwrite in place, or append a new key. *)
Fixpoint dict_set (d : dict) (k : string) (v : val) : dict :=
  match d with
  | [] => [(k, v)]
  | (k', v') :: d' =>
      if String.eqb k' k then (k', v) :: d' else (k', v') :: dict_set d' k v
  end.

(** [d.update(other)] *)
Definition dict_update (d other : dict) : dict :=
  foldl (λ acc kv, dict_set acc kv.1 kv.2) d other.

(** [{k: v for k, v in d.items() if v}] *)
Definition filter_truthy (d : dict) : dict :=
  List.filter (λ kv, truthy kv.2) d.

(** ** Fallible primitives *)

(** [v[0]] *)
Definition index0 (v : val) : res val :=
  match v with
  | VList (x :: _) => Ok x
  | VList [] => Raise IndexError
  | VStr (String c _) => Ok (VStr (String c ""))
  | VStr "" => Raise IndexError
  | VDict _ => Raise KeyError
  | _ => Raise TypeError
  end.

(** [v.get(key, default)]: only a dict has the method. *)
Definition get_default (v : val) (key : string) (default : val) : res val :=
  match v with
  | VDict m => Ok (from_option id default (assoc_get m key))
  | _ => Raise AttributeError
  end.

(** [v.get(key)] *)
Definition get (v : val) (key : string) : res val := get_default v key VNone.

(** [v[key]] *)
Definition getitem (v : val) (key : string) : res val :=
  match v with
  | VDict m => from_option Ok (Raise KeyError) (assoc_get m key)
  | _ => Raise TypeError
  end.

Fixpoint chars (s : string) : list val :=
  match s with
  | "" => []
  | String c s' => VStr (String c "") :: chars s'
  end.

(** The items a [for] loop over [v] visits. *)
Definition iter (v : val) : res (list val) :=
  match v with
  | VList l => Ok l
  | VDict m => Ok (VStr <$> keys m)
  | VStr s => Ok (chars s)
  | _ => Raise TypeError
  end.

(** ** Mapping tables *)

(** A field of a table is a tuple of keys or a nested table. *)
Inductive field_spec : Type :=
| Path (path : list string)
| Group (fields : list (string * field_spec)).

Abbreviation table := (list (string * field_spec)).

Definition SUMMARY_DATA_KEY_MAPPINGS : list (string * table) :=
  [ ("bioconda",
      [ ("name", Path ["package"; "name"]);
        ("version", Path ["package"; "version"]);
        ("license", Path ["about"; "license"]);
        ("summary", Path ["about"; "summary"]) ]);
    ("biotools",
      [ ("license", Path ["license"]);
        ("summary", Path ["description"]);
        ("addition_date", Path ["additionDate"]);
        ("last_update_date", Path ["lastUpdate"]);
        ("version", Path ["version"]) ]);
    ("bioschemas",
      [ ("name", Path ["sc:name"]);
        ("license", Path ["sc:license"]);
        ("version", Path ["sc:softwareVersion"]) ]);
    ("galaxy",
      [ ("summary", Path ["Description"]);
        ("edam_topics", Path ["EDAM_topics"]) ]);
    ("biocontainers",
      [ ("name", Path ["name"]);
        ("license", Path ["license"]);
        ("summary", Path ["description"]) ]) ].

Definition PAGE_DATA_KEY_MAPPINGS : list (string * table) :=
  [ ("bioconda",
      [ ("name", Path ["package"; "name"]);
        ("version", Path ["package"; "version"]);
        ("home", Path ["about"; "home"]);
        ("documentation", Path ["about"; "doc_url"]);
        ("license", Path ["about"; "license"]);
        ("summary", Path ["about"; "summary"]);
        ("identifiers", Path ["extra"; "identifiers"]) ]);
    ("biocontainers",
      [ ("name", Path ["name"]);
        ("identifiers", Path ["identifiers"]);
        ("license", Path ["license"]);
        ("summary", Path ["description"]) ]);
    ("biotools",
      [ ("id", Path ["biotoolsID"]);
        ("home", Path ["homepage"]);
        ("license", Path ["license"]);
        ("summary", Path ["description"]);
        ("addition_date", Path ["additionDate"]);
        ("last_update_date", Path ["lastUpdate"]);
        ("tool_type", Path ["toolType"]);
        ("version", Path ["version"]) ]);
    ("bioschemas",
      [ ("name", Path ["sc:name"]);
        ("home", Path ["@id"]);
        ("license", Path ["sc:license"]);
        ("version", Path ["sc:softwareVersion"]);
        ("summary", Path ["sc:description"]);
        ("tool_type", Path ["@type"]) ]);
    ("galaxy",
      [ ("first_commit", Path ["Suite_first_commit_date"]);
        ("conda_name", Path ["Suite_conda_package"]);
        ("conda_version", Path ["Latest_suite_conda_package_version"]);
        ("summary", Path ["Description"]);
        ("edam_operations", Path ["EDAM_operations"]);
        ("edam_topics", Path ["EDAM_topics"]);
        ("toolshed_categories", Path ["ToolShed_categories"]);
        ("toolshed_id", Path ["Suite_ID"]);
        ("users_5_years", Path ["Suite_users_(last_5_years)_on_main_servers"]);
        ("users_all_time", Path ["Suite_users_on_main_servers"]);
        ("usage_5_years", Path ["Suite_runs_(last_5_years)_on_main_servers"]);
        ("usage_all_time", Path ["Suite_runs_on_main_servers"]);
        ("bio_tools_summary", Path ["bio.tool_description"]);
        ("bio_tools_ids", Path ["bio.tool_ID"]);
        ("bio_tools_name", Path ["bio.tool_name"]);
        ("related_tutorials", Path ["Related_Tutorials"]);
        ("related_workflows", Path ["Related_Workflows"]);
        ("tool_ids", Path ["Tool_IDs"]);
        ("no_of_tools", Group
          [ ("eu", Path ["Number_of_tools_on_UseGalaxy.eu"]);
            ("org", Path ["Number_of_tools_on_UseGalaxy.org_(Main)"]);
            ("au", Path ["Number_of_tools_on_UseGalaxy.org.au"]);
            ("be", Path ["Number_of_tools_on_UseGalaxy.be"]);
            ("cz", Path ["Number_of_tools_on_UseGalaxy.cz"]);
            ("fr", Path ["Number_of_tools_on_UseGalaxy.fr"]);
            ("no", Path ["Number_of_tools_on_UseGalaxy.no"]) ]) ]) ].

(** ** [extract_data] and its two local functions *)

(** One turn of the loop of [traverse_keys]: a list is replaced by its head
    ([None] when empty), then a dict is replaced by its value at [key];
    anything else ends the walk with [None]. *)
Fixpoint traverse_keys (d : val) (path : list string) : res val :=
  match path with
  | [] => Ok d
  | key :: path' =>
      d ← (if isinstance_list d
           then (if truthy d then index0 d else Ok VNone)
           else Ok d);
      if isinstance_dict d
      then d ← get d key; traverse_keys d path'
      else Ok VNone
  end.

(** [{k: f(v) for k, v in mappings.items()}]: the keys of a dict are distinct,
    so every turn appends one item. *)
Definition dict_comprehension {A} (f : A → res val)
  : list (string * A) → res dict :=
  fix go (items : list (string * A)) : res dict :=
    match items with
    | [] => Ok []
    | (k, v) :: items' =>
        x ← f v;
        rest ← go items';
        Ok ((k, x) :: rest)
    end.

(** The value [extract] computes for one field:
    [extract(d, v) if isinstance(v, dict) else traverse_keys(d, *v) or None]. *)
Fixpoint extract_field (d : val) (v : field_spec) : res val :=
  match v with
  | Group fields => VDict <$> dict_comprehension (extract_field d) fields
  | Path path => r ← traverse_keys d path; Ok (py_or r VNone)
  end.

Definition extract (d : val) (mappings : table) : res dict :=
  dict_comprehension (extract_field d) mappings.

(** [next((entry for entry in graph if entry.get("@type") == target), None)] *)
Fixpoint next_typed (entries : list val) (target : string) : res val :=
  match entries with
  | [] => Ok VNone
  | entry :: entries' =>
      t ← get entry "@type";
      if eq_str t target then Ok entry else next_typed entries' target
  end.

Definition extract_data (tool_type : string) (data : val)
    (key_mappings : list (string * table)) : res dict :=
  let mappings := default [] (assoc_get key_mappings tool_type) in
  if String.eqb tool_type "bioschemas" then
    graph ← get_default data "@graph" (VList []);
    entries ← iter graph;
    software_data ← next_typed entries "sc:SoftwareApplication";
    if truthy software_data
    then block ← extract software_data mappings; Ok [(tool_type, VDict block)]
    else Ok []
  else
    block ← extract data mappings; Ok [(tool_type, VDict block)].

(** ** Paths ([os.path]) *)

Definition sep : ascii := "/"%char.
Definition extsep : ascii := "."%char.

(** The characters of [s] in front of its first [c]. *)
Fixpoint before (c : ascii) (s : list ascii) : list ascii :=
  match s with
  | [] => []
  | a :: s' => if Ascii.eqb a c then [] else a :: before c s'
  end.

(** [os.path.basename]: what follows the last separator.  On the reversed
    path that is what precedes the first one. *)
Definition basename (p : string) : string :=
  string_of_list_ascii
    (reverse (before sep (reverse (list_ascii_of_string p)))).

(** [os.path.join(a, b)] *)
Definition join (a b : string) : string :=
  match b with
  | String "/" _ => b
  | _ =>
      match reverse (list_ascii_of_string a) with
      | [] => b
      | c :: _ => if Ascii.eqb c sep then a +:+ b else a +:+ "/" +:+ b
      end
  end.

(** [os.path.splitext(p)[1]], scanning the reversed path: the extension
    runs from the last dot, provided no separator follows that dot and the
    file name has a character other than a dot in front of it. *)
Fixpoint splitext_rev (r acc : list ascii) : list ascii :=
  match r with
  | [] => []
  | c :: r' =>
      if Ascii.eqb c sep then []
      else if Ascii.eqb c extsep then
        if existsb (λ a, negb (Ascii.eqb a extsep)) (before sep r')
        then c :: acc else []
      else splitext_rev r' (c :: acc)
  end.

Definition splitext_ext (p : string) : string :=
  string_of_list_ascii (splitext_rev (reverse (list_ascii_of_string p)) []).

(** [x in [a, b]] on strings *)
Definition str_in (x : string) (l : list string) : bool :=
  existsb (String.eqb x) l.

(** ** The folder pass *)

Definition file_patterns (folder_name : string) : list (string * string) :=
  [ ("bioconda_" +:+ folder_name +:+ ".yaml", "bioconda");
    (folder_name +:+ ".biocontainers.yaml", "biocontainers");
    (folder_name +:+ ".biotools.json", "biotools");
    (folder_name +:+ ".bioschemas.jsonld", "bioschemas");
    (folder_name +:+ ".galaxy.json", "galaxy") ].

(** The three accumulators of [process_files_in_folder]. *)
Record acc : Type := Acc {
  contents : gset string;
  fetched_metadata : dict;
  extracted_page_metadata : dict
}.

Definition is_none (v : val) : bool :=
  match v with VNone => true | _ => false end.

(** [for x in xs: st = body(st, x)], an exception ending the loop. *)
Fixpoint for_each {S A} (body : S → A → res S) (xs : list A) (st : S)
  : res S :=
  match xs with
  | [] => Ok st
  | x :: xs' => st' ← body st x; for_each body xs' st'
  end.

(** [list(contents)]: the members of the set, in an order Python does not
    fix. *)
Definition list_of_set (s : gset string) : val := VList (VStr <$> elements s).

(** The two dicts [process_files_in_folder] returns for a tool folder. *)
Definition metadata_record (folder_name : string) (contents : gset string)
    (fetched_metadata : dict) : val :=
  VDict [ ("tool_name", VStr folder_name);
          ("contents", list_of_set contents);
          ("fetched_metadata", VDict fetched_metadata) ].

Definition page_metadata_record (folder_name : string) (contents : gset string)
    (extracted_page_metadata : dict) : val :=
  VDict [ ("tool_name", VStr folder_name);
          ("contents", list_of_set contents);
          ("page_metadata", VDict extracted_page_metadata) ].

Section Disk.
(** What is on disk: the content of every path that exists, and what the
    two loaders make of a content (a value, or an exception). *)
Variable content : Type.
Variable yaml_safe_load json_load : content → res val.
Variable fs : string → option content.

Definition path_exists (p : string) : bool := bool_decide (is_Some (fs p)).

Definition parse_yaml (file_path : string) : res val :=
  match fs file_path with
  | Some c => yaml_safe_load c
  | None => Raise OSError
  end.

Definition parse_json (file_path : string) : res val :=
  match fs file_path with
  | Some c => json_load c
  | None => Raise OSError
  end.

(** The value assigned to [data]: the loader is chosen by the extension
    of the path, and a path with another extension gives [None]. *)
Definition read_data (file_path : string) : res val :=
  let ext := splitext_ext file_path in
  if str_in ext [".yaml"; ".yml"] then parse_yaml file_path
  else if str_in ext [".json"; ".jsonld"] then parse_json file_path
  else Ok VNone.

(** The body of the loop over [file_patterns]. *)
Definition visit (folder_path : string) (st : acc)
    (pattern : string * string) : res acc :=
  let '(file_name, tool_type) := pattern in
  let file_path := join folder_path file_name in
  if negb (path_exists file_path) then Ok st
  else
    let contents := contents st ∪ {[ tool_type ]} in
    data ← read_data file_path;
    if is_none data
    then Ok (Acc contents (fetched_metadata st) (extracted_page_metadata st))
    else
      extracted_data ← extract_data tool_type data SUMMARY_DATA_KEY_MAPPINGS;
      let fetched_metadata :=
        dict_update (fetched_metadata st) (filter_truthy extracted_data) in
      page_data ← extract_data tool_type data PAGE_DATA_KEY_MAPPINGS;
      let extracted_page_metadata :=
        dict_update (extracted_page_metadata st) (filter_truthy page_data) in
      Ok (Acc contents fetched_metadata extracted_page_metadata).

Definition process_files_in_folder (folder_path : string)
  : res (val * val) :=
  let folder_name := basename folder_path in
  let file_patterns := file_patterns folder_name in
  if negb (existsb (λ p, path_exists (join folder_path p.1)) file_patterns)
  then Ok (VDict [], VDict [])
  else
    st ← for_each (visit folder_path) file_patterns (Acc ∅ [] []);
    let metadata :=
      metadata_record folder_name (contents st) (fetched_metadata st) in
    let page_metadata :=
      page_metadata_record folder_name (contents st)
        (extracted_page_metadata st) in
    Ok (metadata, page_metadata).

(** ** The driver *)

(** What [save_metadata] has written: output file and JSON value.  A write
    is taken to succeed: the errors of [os.makedirs], [open] and
    [json.dump] (a value JSON cannot encode) are not part of the model, so
    nothing below is read as a promise that the files get written. *)
Record output : Type := Output {
  combined_metadata : list val;
  saved : list (string * val)
}.

(** [f"{v}"] for the one value [main] formats, [page_metadata['tool_name']],
    which is the folder name: the text of a string is the string itself. *)
Definition format (v : val) : string :=
  match v with VStr s => s | _ => "" end.

(** The loop of [main] over the roots [os.walk(data_dir)] yields. *)
Definition main_body (data_dir : string) (out : output) (root : string)
  : res output :=
  if negb (String.eqb root data_dir) then
    '(metadata, page_metadata) ← process_files_in_folder root;
    if negb (truthy metadata) || negb (truthy page_metadata) then Ok out
    else
      tool_name ← getitem page_metadata "tool_name";
      Ok (Output (combined_metadata out ++ [metadata])
            (saved out ++
               [("tools/" +:+ format tool_name +:+ ".json", page_metadata)]))
  else Ok out.

Definition main (data_dir : string) (walk : list string) : res output :=
  out ← for_each (main_body data_dir) walk (Output [] []);
  Ok (Output (combined_metadata out)
        (saved out ++
           [("combined_metadata.json", VList (combined_metadata out))])).
End Disk.

(** ** The walk and the evaluation as the specification words them *)

(** "A sequence is always collapsed to its head before a key lookup is
    attempted on it": the head of a list ([None] when empty), any other
    value as it is. *)
Definition head_of (current : val) : val :=
  match current with
  | VList [] => VNone
  | VList (x :: _) => x
  | _ => current
  end.

(** [resolve(record, path)] of the specification: unwrap, then descend on a
    mapping, or stop with the absent marker. *)
Fixpoint resolve (current : val) (path : list string) : val :=
  match path with
  | [] => current
  | key :: path' =>
      match head_of current with
      | VDict m => resolve (default VNone (assoc_get m key)) path'
      | _ => VNone
      end
  end.

(** [evaluate(record, entry)] of the specification: a nested table is
    evaluated field by field, a path is resolved and a falsy result
    becomes null. *)
Fixpoint evaluate_field (d : val) (v : field_spec) : val :=
  match v with
  | Group fields => VDict (map (λ kv, (kv.1, evaluate_field d kv.2)) fields)
  | Path path => let r := resolve d path in if truthy r then r else VNone
  end.

Definition evaluate (d : val) (mappings : table) : dict :=
  map (λ kv, (kv.1, evaluate_field d kv.2)) mappings.

(** The output of a table when nothing resolves: null at every path, and a
    nested table of nulls at every group. *)
Fixpoint nulls_field (v : field_spec) : val :=
  match v with
  | Group fields => VDict (map (λ kv, (kv.1, nulls_field kv.2)) fields)
  | Path _ => VNone
  end.

Definition nulls (mappings : table) : dict :=
  map (λ kv, (kv.1, nulls_field kv.2)) mappings.

(** Nothing resolves under [v]: every path below it gives a falsy value. *)
Fixpoint unresolved (d : val) (v : field_spec) : bool :=
  match v with
  | Group fields => forallb (λ kv, unresolved d kv.2) fields
  | Path path => negb (truthy (resolve d path))
  end.

(** The three ways a walk is stopped in front of [key]. *)
Definition scalar (v : val) : bool :=
  negb (isinstance_list v) && negb (isinstance_dict v).

Definition empty_sequence (v : val) : bool :=
  match v with VList [] => true | _ => false end.

Definition lacks (v : val) (key : string) : bool :=
  match head_of v with
  | VDict m => bool_decide (assoc_get m key = None)
  | _ => false
  end.

(** ** Folders, as the specification speaks of them *)

Arguments path_exists {content} fs p.
Arguments parse_yaml {content} yaml_safe_load fs file_path.
Arguments parse_json {content} json_load fs file_path.
Arguments read_data {content} yaml_safe_load json_load fs file_path.
Arguments visit {content} yaml_safe_load json_load fs folder_path st pattern.
Arguments process_files_in_folder {content} yaml_safe_load json_load fs
  folder_path.
Arguments main_body {content} yaml_safe_load json_load fs data_dir out root.
Arguments main {content} yaml_safe_load json_load fs data_dir walk.

(** At least one of the five candidate files of the folder exists. *)
Definition has_candidate {content} (fs : string → option content)
    (folder_path : string) : bool :=
  existsb (λ p, path_exists fs (join folder_path p.1))
    (file_patterns (basename folder_path)).

(** The source kinds whose candidate file exists in the folder. *)
Definition kinds_present {content} (fs : string → option content)
    (folder_path : string) : gset string :=
  list_to_set
    (map snd
       (List.filter (λ p, path_exists fs (join folder_path p.1))
          (file_patterns (basename folder_path)))).

(** The roots of a walk that are tool folders with a candidate file. *)
Definition contributing {content} (fs : string → option content)
    (data_dir : string) (walk : list string) : list string :=
  List.filter (λ root, negb (String.eqb root data_dir) && has_candidate fs root)
    walk.

(** The tables of a source kind. *)
Definition summary_table (tool_type : string) : table :=
  default [] (assoc_get SUMMARY_DATA_KEY_MAPPINGS tool_type).

Definition page_table (tool_type : string) : table :=
  default [] (assoc_get PAGE_DATA_KEY_MAPPINGS tool_type).

(** A linked-data document the adapter can read, holding no node typed
    [sc:SoftwareApplication]: a mapping whose [@graph], if any, is a
    sequence of mappings with another type tag, or none. *)
Definition other_node (entry : val) : bool :=
  match entry with
  | VDict e =>
      negb (eq_str (default VNone (assoc_get e "@type")) "sc:SoftwareApplication")
  | _ => false
  end.

Definition no_software_node (data : val) : bool :=
  match data with
  | VDict m =>
      match default (VList []) (assoc_get m "@graph") with
      | VList entries => forallb other_node entries
      | _ => false
      end
  | _ => false
  end.

(** A linked-data document the adapter can read: a mapping whose [@graph],
    if any, is a sequence of mappings. *)
Definition graph_of_mappings (data : val) : bool :=
  match data with
  | VDict m =>
      match default (VList []) (assoc_get m "@graph") with
      | VList entries => forallb isinstance_dict entries
      | _ => false
      end
  | _ => false
  end.

(** The loader [read_data] applies to the file of a source kind. *)
Definition loader_of {content} (yaml_safe_load json_load : content → res val)
    (tool_type : string) : content → res val :=
  if str_in tool_type ["bioconda"; "biocontainers"]
  then yaml_safe_load else json_load.

(** The folder without the file at [path]. *)
Definition remove_file {content} (fs : string → option content)
    (path : string) : string → option content :=
  λ q, if String.eqb q path then None else fs q.

(** Every path below [v] has at least one key. *)
Fixpoint descends (v : field_spec) : bool :=
  match v with
  | Group fields => forallb (λ kv, descends kv.2) fields
  | Path path => match path with [] => false | _ :: _ => true end
  end.

(** A record that holds none of the mapped keys: a scalar or an empty
    mapping. *)
Definition keyless (data : val) : bool :=
  match data with
  | VDict [] => true
  | VDict (_ :: _) | VList _ => false
  | _ => true
  end.

(** ** A concrete disk *)

(** A file is given by what its loader makes of it: a parsed document, or
    text the loader rejects. *)
Inductive document : Type :=
| Malformed
| Document (v : val).

Definition load (c : document) : res val :=
  match c with
  | Malformed => Raise ParseError
  | Document v => Ok v
  end.

Definition disk (files : list (string * document)) : string → option document :=
  assoc_get files.

(** [data/foo] holds only a linked-data file without a software node. *)
Definition person_graph : val :=
  VDict [("@graph", VList [VDict [("@type", VStr "sc:Person")]])].

Definition disk_person : string → option document :=
  disk [ ("data/foo/foo.bioschemas.jsonld", Document person_graph) ].

(** What [main] writes for [disk_person]. *)
Definition out_person : output :=
  Output
    [ VDict [ ("tool_name", VStr "foo");
              ("contents", VList [VStr "bioschemas"]);
              ("fetched_metadata", VDict []) ] ]
    [ ("tools/foo.json",
       VDict [ ("tool_name", VStr "foo");
               ("contents", VList [VStr "bioschemas"]);
               ("page_metadata", VDict []) ]);
      ("combined_metadata.json",
       VList [ VDict [ ("tool_name", VStr "foo");
                       ("contents", VList [VStr "bioschemas"]);
                       ("fetched_metadata", VDict []) ] ]) ].

(** [data/foo] holds only a tool-registry file the JSON loader rejects. *)
Definition disk_malformed : string → option document :=
  disk [ ("data/foo/foo.biotools.json", Malformed) ].

(** [data/foo] holds only a linked-data file whose root is a sequence. *)
Definition disk_list_root : string → option document :=
  disk [ ("data/foo/foo.bioschemas.jsonld", Document (VList [])) ].

(** [data/foo] holds only a workflow-suite file that reads [null]. *)
Definition disk_null : string → option document :=
  disk [ ("data/foo/foo.galaxy.json", Document VNone) ].

(** [data/foo] holds only a workflow-suite file that reads [{}]. *)
Definition disk_empty_mapping : string → option document :=
  disk [ ("data/foo/foo.galaxy.json", Document (VDict [])) ].

(** Scenario A of the specification: [foo] holds only [foo.biotools.json]. *)
Definition biotools_record : val :=
  VDict [ ("license", VStr "MIT"); ("description", VStr "x");
          ("version", VStr "1.0") ].

Definition disk_scenario_a : string → option document :=
  disk [ ("data/foo/foo.biotools.json", Document biotools_record) ].

(** The dict scenario A expects under [biotools]. *)
Definition scenario_a_expected : dict :=
  [ ("license", VStr "MIT"); ("summary", VStr "x"); ("version", VStr "1.0");
    ("addition_date", VNone); ("last_update_date", VNone) ].

(** ** Further notions *)

(** The output [x] has the shape of the field [v]: at a path a null or a
    truthy value, at a group a dict with the group's keys, in order, each
    value shaped as its field. *)
Fixpoint has_shape (v : field_spec) (x : val) : bool :=
  match v with
  | Path _ => is_none x || truthy x
  | Group fields =>
      match x with
      | VDict inner =>
          (fix go (fields : table) (inner : dict) : bool :=
             match fields, inner with
             | [], [] => true
             | (k, v') :: fields', (k', x') :: inner' =>
                 String.eqb k' k && has_shape v' x' && go fields' inner'
             | _, _ => false
             end) fields inner
      | _ => false
      end
  end.

(** A graph node typed [sc:SoftwareApplication]. *)
Definition software_node (entry : val) : bool :=
  match entry with
  | VDict e =>
      eq_str (default VNone (assoc_get e "@type")) "sc:SoftwareApplication"
  | _ => false
  end.

(** What a [for] loop accepts: a list, a dict or a string. *)
Definition iterable (v : val) : bool :=
  match v with VList _ | VDict _ | VStr _ => true | _ => false end.

(** The record that holds [v] at the end of a path; a step flagged [true]
    wraps its mapping in a one-element list. *)
Fixpoint nest (steps : list (string * bool)) (v : val) : val :=
  match steps with
  | [] => v
  | (key, wrapped) :: steps' =>
      let m := VDict [(key, nest steps' v)] in
      if wrapped then VList [m] else m
  end.

(** A block the folder pass may hold under a kind of [present]: a
    non-empty mapping. *)
Definition block_of (present : gset string) (kv : string * val) : Prop :=
  kv.1 ∈ present ∧ isinstance_dict kv.2 = true ∧ truthy kv.2 = true.

(** [disk_scenario_a] with files that are no candidate of [data/foo]. *)
Definition disk_scenario_a_readme : string → option document :=
  disk [ ("data/foo/README.md", Malformed);
         ("data/foo/foo.biotools.json", Document biotools_record);
         ("data/foo.biotools.json", Malformed) ].

(** [data/foo] holds a linked-data file with a person, a software node and
    an entry that is no mapping. *)
Definition software_graph : dict :=
  [("@graph",
    VList [ VDict [("@type", VStr "sc:Person")];
            VDict [("@type", VStr "sc:SoftwareApplication");
                   ("sc:name", VStr "foo")];
            VInt 3 ])].

Definition disk_software : string → option document :=
  disk [ ("data/foo/foo.bioschemas.jsonld", Document (VDict software_graph)) ].

(** [data/bar] holds a package manifest and a workflow-suite file;
    [data/baz] holds a file the loader rejects. *)
Definition disk_two : string → option document :=
  disk [ ("data/bar/bar.galaxy.json",
          Document (VDict [("Description", VStr "g")]));
         ("data/bar/bioconda_bar.yaml",
          Document (VDict [("package", VDict [("name", VStr "bar")])]));
         ("data/baz/baz.biotools.json", Malformed);
         ("data/foo/foo.galaxy.json", Document (VDict [])) ].

(** * Properties *)

(** ** The error monad *)

Lemma bind_Ok {A B} (a : A) (k : A → res B) : Ok a ≫= k = k a.
Proof. reflexivity. Qed.

Lemma bind_returns {A B} (m : res A) (k : A → res B) (b : B) :
  m ≫= k = Ok b ↔ ∃ a, m = Ok a ∧ k a = Ok b.
Proof.
  destruct m as [a|e]; simpl; split.
  - intros H. exists a. split; [reflexivity | exact H].
  - intros (a' & [= <-] & H). exact H.
  - discriminate.
  - intros (a' & [=] & _).
Qed.

(** Induction on a field that reaches the fields of a group. *)
Lemma field_spec_nested_ind (P : field_spec → Prop) :
  (∀ path, P (Path path)) →
  (∀ fields, Forall (λ kv, P kv.2) fields → P (Group fields)) →
  ∀ v, P v.
Proof.
  intros Hpath Hgroup. fix IH 1. intros [path|fields].
  - apply Hpath.
  - apply Hgroup. induction fields as [|kv fields IHfields].
    + constructor.
    + constructor; [apply IH | apply IHfields].
Qed.

(** ** The path walker *)

Lemma traverse_keys_resolve (d : val) (path : list string) :
  traverse_keys d path = Ok (resolve d path).
Proof.
  revert d. induction path as [|key path IH]; intros d; [reflexivity|].
  destruct d as [| | | | |[|x l]|m]; simpl; try reflexivity.
  - destruct x; simpl; try reflexivity. apply IH.
  - apply IH.
Qed.

Lemma resolve_none (path : list string) : resolve VNone path = VNone.
Proof. destruct path; reflexivity. Qed.

Lemma resolve_app (d : val) (p q : list string) :
  resolve d (p ++ q) = resolve (resolve d p) q.
Proof.
  revert d. induction p as [|key p IH]; intros d; simpl; [reflexivity|].
  destruct (head_of d); rewrite ?resolve_none; try reflexivity. apply IH.
Qed.

Lemma resolve_stopped (v : val) (key : string) (rest : list string) :
  scalar v || empty_sequence v || lacks v key = true →
  resolve v (key :: rest) = VNone.
Proof.
  unfold scalar, empty_sequence, lacks. simpl.
  destruct v as [| | | | |[|x l]|m]; simpl; try reflexivity; try discriminate.
  - destruct x; try reflexivity. simpl. case_bool_decide; [|discriminate].
    intros _. rewrite H. apply resolve_none.
  - case_bool_decide; [|discriminate]. intros _. rewrite H. apply resolve_none.
Qed.

(** C5. [traverse_keys] is total: on every record and path it returns,
    without raising, what the walk of the specification resolves; and the
    result is the absent marker as soon as a proper prefix of the path
    resolves to a scalar, to an empty sequence, or to a mapping (reached
    after unwrapping a sequence to its head) that lacks the next key. *)
Theorem traverse_keys_total (d : val) (path : list string) :
  traverse_keys d path = Ok (resolve d path) ∧
  ∀ (prefix : list string) (key : string) (rest : list string) (v : val),
    path = prefix ++ key :: rest →
    traverse_keys d prefix = Ok v →
    scalar v || empty_sequence v || lacks v key = true →
    traverse_keys d path = Ok VNone.
Proof.
  split; [apply traverse_keys_resolve|].
  intros prefix key rest v -> Hv Hstop.
  rewrite traverse_keys_resolve in Hv. injection Hv as <-.
  rewrite traverse_keys_resolve, resolve_app.
  f_equal. apply resolve_stopped, Hstop.
Qed.

Lemma traverse_keys_total_witness :
  traverse_keys (VDict [("a", VInt 1)]) ["a"; "b"] = Ok VNone
  ∧ traverse_keys (VDict [("a", VList [])]) ["a"; "b"] = Ok VNone
  ∧ traverse_keys (VDict [("a", VList [VDict [("c", VInt 1)]])]) ["a"; "b"; "c"]
    = Ok VNone.
Proof.
  split; [|split].
  - apply (proj2 (traverse_keys_total (VDict [("a", VInt 1)]) ["a"; "b"])
             ["a"] "b" [] (VInt 1)); reflexivity.
  - apply (proj2 (traverse_keys_total (VDict [("a", VList [])]) ["a"; "b"])
             ["a"] "b" [] (VList [])); reflexivity.
  - apply (proj2 (traverse_keys_total
                    (VDict [("a", VList [VDict [("c", VInt 1)]])])
                    ["a"; "b"; "c"])
             ["a"] "b" ["c"] (VList [VDict [("c", VInt 1)]])); reflexivity.
Defined.

(** C6, as stated, fails twice.  A sequence whose head is itself a sequence
    is unwrapped once only, so the walk stops where the walk from the head
    goes on; and with the empty path the record comes back as it is, also
    when it is the empty sequence. *)
Lemma traverse_keys_head_counterexample :
  index0 (VList [VList [VDict [("a", VInt 1)]]])
    = Ok (VList [VDict [("a", VInt 1)]])
  ∧ traverse_keys (VList [VList [VDict [("a", VInt 1)]]]) ["a"] = Ok VNone
  ∧ traverse_keys (VList [VDict [("a", VInt 1)]]) ["a"] = Ok (VInt 1)
  ∧ traverse_keys (VList []) [] = Ok (VList [])
  ∧ traverse_keys (VList [VInt 7]) [] = Ok (VList [VInt 7])
  ∧ traverse_keys (VInt 7) [] = Ok (VInt 7).
Proof. repeat split. Qed.

(** C6, amended.  For every sequence and every path of at least one key:
    the walk from an empty sequence gives the absent marker; the walk from
    a sequence whose head is not a sequence is the walk from that head; and
    the walk from a sequence whose head is a sequence gives the absent
    marker. *)
Theorem traverse_keys_head (l : list val) (key : string) (rest : list string) :
  traverse_keys (VList l) (key :: rest) =
    match l with
    | [] => Ok VNone
    | x :: _ =>
        if isinstance_list x then Ok VNone else traverse_keys x (key :: rest)
    end.
Proof.
  destruct l as [|x l]; [reflexivity|].
  destruct x; reflexivity.
Qed.

(** ** The mapping evaluator *)

Lemma dict_comprehension_map {A} (f : A → res val) (g : A → val)
    (items : list (string * A)) :
  Forall (λ kv, f kv.2 = Ok (g kv.2)) items →
  dict_comprehension f items = Ok (map (λ kv, (kv.1, g kv.2)) items).
Proof.
  induction 1 as [|[k v] items Hv _ IH]; [reflexivity|].
  simpl in *. rewrite Hv. simpl. rewrite IH. reflexivity.
Qed.

Lemma extract_field_evaluate (d : val) (v : field_spec) :
  extract_field d v = Ok (evaluate_field d v).
Proof.
  induction v as [path|fields IH] using field_spec_nested_ind.
  - simpl. rewrite traverse_keys_resolve. reflexivity.
  - simpl. rewrite (dict_comprehension_map _ (evaluate_field d)); [reflexivity|].
    exact IH.
Qed.

Lemma extract_evaluate (d : val) (mappings : table) :
  extract d mappings = Ok (evaluate d mappings).
Proof.
  apply (dict_comprehension_map _ (evaluate_field d)).
  apply Forall_forall. intros kv _. apply extract_field_evaluate.
Qed.

Lemma assoc_get_map {A B} (g : A → B) (m : list (string * A)) (k : string) :
  assoc_get (map (λ kv, (kv.1, g kv.2)) m) k = g <$> assoc_get m k.
Proof.
  induction m as [|[k' v] m IH]; [reflexivity|].
  simpl. destruct (String.eqb k' k); [reflexivity | exact IH].
Qed.

Lemma keys_map {A B} (g : A → B) (m : list (string * A)) :
  keys (map (λ kv, (kv.1, g kv.2)) m) = keys m.
Proof.
  unfold keys. induction m as [|[k v] m IH]; [reflexivity|].
  simpl. f_equal. exact IH.
Qed.

Lemma evaluate_unresolved (d : val) (v : field_spec) :
  unresolved d v = true → evaluate_field d v = nulls_field v.
Proof.
  induction v as [path|fields IH] using field_spec_nested_ind; simpl.
  - destruct (truthy (resolve d path)); [discriminate | reflexivity].
  - intros Hall. f_equal. induction IH as [|[k v] fields Hv _ IHfields].
    + reflexivity.
    + simpl in *. apply andb_prop in Hall as [Hk Hrest].
      rewrite (Hv Hk), (IHfields Hrest). reflexivity.
Qed.

(** C8. For every record and every entry of a table that is a path, the
    value [extract] stores under the entry's name is the resolved value when
    that is truthy and an explicit null when it is falsy (absent, empty
    sequence, empty mapping, zero, false, empty string): the falsy value
    itself is never left in the extracted record. *)
Theorem extract_falsy_is_null (d : val) (mappings : table) (k : string)
    (path : list string) :
  assoc_get mappings k = Some (Path path) →
  ∃ (r : val) (out : dict),
    traverse_keys d path = Ok r ∧
    extract d mappings = Ok out ∧
    assoc_get out k = Some (if truthy r then r else VNone) ∧
    (truthy r = false → assoc_get out k = Some VNone) ∧
    (∀ x, assoc_get out k = Some x → x = VNone ∨ truthy x = true).
Proof.
  intros Hk. exists (resolve d path), (evaluate d mappings).
  assert (Hout : assoc_get (evaluate d mappings) k
                 = Some (if truthy (resolve d path)
                         then resolve d path else VNone)).
  { unfold evaluate. rewrite assoc_get_map, Hk. reflexivity. }
  split; [apply traverse_keys_resolve|].
  split; [apply extract_evaluate|].
  split; [exact Hout|]. split.
  - intros Hr. rewrite Hout, Hr. reflexivity.
  - intros x. rewrite Hout. intros [= <-].
    destruct (truthy (resolve d path)) eqn:Hr; [right; exact Hr | left; reflexivity].
Qed.

Lemma extract_falsy_is_null_witness :
  ∃ (r : val) (out : dict),
    traverse_keys (VDict [("license", VStr ""); ("version", VInt 0)])
      ["version"] = Ok r ∧
    extract (VDict [("license", VStr ""); ("version", VInt 0)])
      [("license", Path ["license"]); ("version", Path ["version"])] = Ok out ∧
    assoc_get out "version" = Some (if truthy r then r else VNone) ∧
    (truthy r = false → assoc_get out "version" = Some VNone) ∧
    (∀ x, assoc_get out "version" = Some x → x = VNone ∨ truthy x = true).
Proof.
  apply (extract_falsy_is_null
           (VDict [("license", VStr ""); ("version", VInt 0)])
           [("license", Path ["license"]); ("version", Path ["version"])]
           "version" ["version"]).
  reflexivity.
Defined.

(** C9. For every record and every table with a nested group under [k]
    (as [no_of_tools] in the galaxy page table), [extract] returns, and its
    output has [k] mapped to an inner mapping with exactly the child keys of
    the group, in order; a child that is a path holds its resolved value or
    null; and when nothing below the group resolves the inner mapping is
    still there, null at every child. *)
Theorem extract_group_always_present (d : val) (mappings : table)
    (k : string) (fields : table) :
  assoc_get mappings k = Some (Group fields) →
  ∃ (out inner : dict),
    extract d mappings = Ok out ∧
    assoc_get out k = Some (VDict inner) ∧
    extract d fields = Ok inner ∧
    keys inner = keys fields ∧
    (∀ (c : string) (path : list string),
        assoc_get fields c = Some (Path path) →
        ∃ r, traverse_keys d path = Ok r ∧
             assoc_get inner c = Some (if truthy r then r else VNone)) ∧
    (forallb (λ kv, unresolved d kv.2) fields = true → inner = nulls fields).
Proof.
  intros Hk. exists (evaluate d mappings), (evaluate d fields).
  split; [apply extract_evaluate|].
  split; [unfold evaluate at 1; rewrite assoc_get_map, Hk; reflexivity|].
  split; [apply extract_evaluate|].
  split; [apply keys_map|]. split.
  - intros c path Hc. exists (resolve d path).
    split; [apply traverse_keys_resolve|].
    unfold evaluate. rewrite assoc_get_map, Hc. reflexivity.
  - intros Hall.
    assert (H : evaluate_field d (Group fields) = nulls_field (Group fields))
      by (apply evaluate_unresolved; exact Hall).
    injection H as H. exact H.
Qed.

Lemma extract_group_always_present_witness :
  ∃ (out inner : dict),
    extract (VDict [("Description", VStr "x")])
      (default [] (assoc_get PAGE_DATA_KEY_MAPPINGS "galaxy")) = Ok out ∧
    assoc_get out "no_of_tools" = Some (VDict inner) ∧
    inner = [ ("eu", VNone); ("org", VNone); ("au", VNone); ("be", VNone);
              ("cz", VNone); ("fr", VNone); ("no", VNone) ].
Proof.
  destruct (extract_group_always_present
              (VDict [("Description", VStr "x")])
              (default [] (assoc_get PAGE_DATA_KEY_MAPPINGS "galaxy"))
              "no_of_tools"
              [ ("eu", Path ["Number_of_tools_on_UseGalaxy.eu"]);
                ("org", Path ["Number_of_tools_on_UseGalaxy.org_(Main)"]);
                ("au", Path ["Number_of_tools_on_UseGalaxy.org.au"]);
                ("be", Path ["Number_of_tools_on_UseGalaxy.be"]);
                ("cz", Path ["Number_of_tools_on_UseGalaxy.cz"]);
                ("fr", Path ["Number_of_tools_on_UseGalaxy.fr"]);
                ("no", Path ["Number_of_tools_on_UseGalaxy.no"]) ]
              eq_refl)
    as (out & inner & Hout & Hk & _ & _ & _ & Hnull).
  exists out, inner. split; [exact Hout|]. split; [exact Hk|].
  apply Hnull. reflexivity.
Defined.

(** ** Paths *)

Lemma list_ascii_of_string_app (a b : string) :
  list_ascii_of_string (a +:+ b) = list_ascii_of_string a ++ list_ascii_of_string b.
Proof.
  induction a as [|c a IH]; [reflexivity|].
  change (String c a +:+ b) with (String c (a +:+ b)). simpl. f_equal. exact IH.
Qed.

Lemma app_assoc_str (a b c : string) : a +:+ b +:+ c = (a +:+ b) +:+ c.
Proof.
  induction a as [|x a IH]; [reflexivity|].
  change (String x a +:+ b +:+ c) with (String x (a +:+ b +:+ c)).
  rewrite IH. reflexivity.
Qed.

Lemma join_suffix (a b : string) : ∃ x, join a b = x +:+ b.
Proof.
  unfold join.
  assert (H : ∃ x, match reverse (list_ascii_of_string a) with
                   | [] => b
                   | c :: _ => if Ascii.eqb c sep then a +:+ b else a +:+ "/" +:+ b
                   end = x +:+ b).
  { destruct (reverse (list_ascii_of_string a)) as [|c r].
    - exists "". reflexivity.
    - destruct (Ascii.eqb c sep).
      + exists a. reflexivity.
      + exists (a +:+ "/"). apply app_assoc_str. }
  destruct b as [|c b]; [exact H|].
  destruct (Ascii.eqb c "/") eqn:E.
  - apply Ascii.eqb_eq in E. subst c. exists "". reflexivity.
  - destruct c as [[] [] [] [] [] [] [] []]; try exact H. discriminate.
Qed.

Lemma before_no_sep (c : ascii) (s : list ascii) : Forall (λ a, a ≠ c) (before c s).
Proof.
  induction s as [|a s IH]; simpl; [constructor|].
  destruct (Ascii.eqb a c) eqn:E; [constructor|].
  constructor; [|exact IH]. apply Ascii.eqb_neq, E.
Qed.

Lemma basename_chars (p : string) :
  Forall (λ a, a ≠ sep) (reverse (list_ascii_of_string (basename p))).
Proof.
  unfold basename. rewrite list_ascii_of_string_of_list_ascii, reverse_involutive.
  apply before_no_sep.
Qed.

Lemma name_before_dot (l : list ascii) (c : ascii) (rest : list ascii) :
  Forall (λ a, a ≠ sep) l → c ≠ sep → c ≠ extsep →
  existsb (λ a, negb (Ascii.eqb a extsep)) (before sep (l ++ c :: rest)) = true.
Proof.
  intros Hl Hsep Hdot. induction Hl as [|a l Ha _ IH]; simpl.
  - apply Ascii.eqb_neq in Hsep, Hdot. rewrite Hsep. simpl. rewrite Hdot. reflexivity.
  - apply Ascii.eqb_neq in Ha. rewrite Ha. simpl. rewrite IH. apply orb_true_r.
Qed.

Lemma splitext_stem (x name : string) :
  splitext_ext (x +:+ name +:+ ".biocontainers.yaml") = ".yaml" ∧
  splitext_ext (x +:+ name +:+ ".biotools.json") = ".json" ∧
  splitext_ext (x +:+ name +:+ ".bioschemas.jsonld") = ".jsonld" ∧
  splitext_ext (x +:+ name +:+ ".galaxy.json") = ".json".
Proof.
  unfold splitext_ext. rewrite !list_ascii_of_string_app, !reverse_app.
  repeat split; reflexivity.
Qed.

Lemma splitext_bioconda (x : string) (p : string) :
  splitext_ext (x +:+ "bioconda_" +:+ basename p +:+ ".yaml") = ".yaml".
Proof.
  unfold splitext_ext. rewrite !list_ascii_of_string_app, !reverse_app.
  change (reverse (list_ascii_of_string ".yaml")) with ["l"; "m"; "a"; "y"; "."]%char.
  change (reverse (list_ascii_of_string "bioconda_"))
    with ("_" :: reverse (list_ascii_of_string "bioconda"))%char.
  simpl. rewrite <- app_assoc. simpl.
  rewrite name_before_dot; [reflexivity| |discriminate|discriminate].
  apply basename_chars.
Qed.

(** ** Dicts *)

Lemma assoc_get_dict_set_eq (d : dict) (k : string) (v : val) :
  assoc_get (dict_set d k v) k = Some v.
Proof.
  induction d as [|[k' v'] d IH]; simpl.
  - rewrite String.eqb_refl. reflexivity.
  - destruct (String.eqb k' k) eqn:E; simpl; rewrite E; [reflexivity | exact IH].
Qed.

Lemma assoc_get_dict_set_ne (d : dict) (k k' : string) (v : val) :
  k ≠ k' → assoc_get (dict_set d k v) k' = assoc_get d k'.
Proof.
  intros Hne. induction d as [|[k0 v0] d IH]; simpl.
  - apply String.eqb_neq in Hne. rewrite Hne. reflexivity.
  - destruct (String.eqb k0 k) eqn:E; simpl.
    + apply String.eqb_eq in E. subst k0.
      apply String.eqb_neq in Hne. rewrite Hne. reflexivity.
    + rewrite IH. reflexivity.
Qed.

(** ** The adapter *)

Lemma next_typed_none (entries : list val) :
  forallb other_node entries = true →
  next_typed entries "sc:SoftwareApplication" = Ok VNone.
Proof.
  induction entries as [|entry entries IH]; [reflexivity|].
  simpl. intros [Hentry Hrest]%andb_prop.
  destruct entry; try discriminate. simpl in *.
  destruct (eq_str _ _); [discriminate | apply IH, Hrest].
Qed.

Lemma extract_data_no_node (data : val) (key_mappings : list (string * table)) :
  no_software_node data = true →
  extract_data "bioschemas" data key_mappings = Ok [].
Proof.
  unfold no_software_node, extract_data. simpl.
  destruct data as [| | | | | |m]; try discriminate. simpl.
  destruct (assoc_get m "@graph") as [[| | | | |entries|]|]; simpl;
    try discriminate; [|reflexivity].
  intros Hall. rewrite (next_typed_none _ Hall). reflexivity.
Qed.

Lemma extract_data_direct (tool_type : string) (data : val)
    (key_mappings : list (string * table)) :
  String.eqb tool_type "bioschemas" = false →
  extract_data tool_type data key_mappings =
    Ok [(tool_type,
         VDict (evaluate data (default [] (assoc_get key_mappings tool_type))))].
Proof.
  intros Hkind. unfold extract_data. rewrite Hkind, extract_evaluate. reflexivity.
Qed.

Lemma next_typed_returns (entries : list val) (target : string) :
  forallb isinstance_dict entries = true →
  ∃ v, next_typed entries target = Ok v ∧
       (truthy v = true → isinstance_dict v = true).
Proof.
  induction entries as [|entry entries IH]; simpl.
  - intros _. exists VNone. split; [reflexivity | discriminate].
  - intros [Hentry Hrest]%andb_prop.
    destruct entry; try discriminate. simpl.
    destruct (eq_str _ _); [|apply IH, Hrest].
    eexists. split; [reflexivity|]. reflexivity.
Qed.

Lemma extract_data_graph_returns (data : val)
    (key_mappings : list (string * table)) :
  graph_of_mappings data = true →
  ∃ block, extract_data "bioschemas" data key_mappings = Ok block.
Proof.
  unfold graph_of_mappings, extract_data. simpl.
  destruct data as [| | | | | |m]; try discriminate. simpl.
  assert (Hgo : ∀ entries, forallb isinstance_dict entries = true →
    ∃ block,
      (software_data ← next_typed entries "sc:SoftwareApplication";
       if truthy software_data
       then block ← extract software_data
                      (default [] (assoc_get key_mappings "bioschemas"));
            Ok [("bioschemas", VDict block)]
       else Ok []) = Ok block).
  { intros entries Hall.
    destruct (next_typed_returns entries "sc:SoftwareApplication" Hall)
      as (v & -> & _). simpl.
    destruct (truthy v); [|eexists; reflexivity].
    rewrite extract_evaluate. eexists. reflexivity. }
  destruct (assoc_get m "@graph") as [[| | | | |entries|]|]; simpl;
    try discriminate.
  - apply Hgo.
  - intros _. apply (Hgo []). reflexivity.
Qed.

Lemma extract_data_root_raises (data : val)
    (key_mappings : list (string * table)) :
  isinstance_dict data = false →
  extract_data "bioschemas" data key_mappings = Raise AttributeError.
Proof. destruct data; try discriminate; reflexivity. Qed.

(** ** The folder pass *)

Lemma for_each_returns {S A} (body : S → A → res S) (xs : list A) (st : S) :
  (∀ x st, In x xs → returns (body st x)) → returns (for_each body xs st).
Proof.
  revert st. induction xs as [|x xs IH]; intros st Hbody.
  - exists st. reflexivity.
  - simpl. destruct (Hbody x st) as [st' ->]; [left; reflexivity|].
    simpl. apply IH. intros y st'' Hy. apply Hbody. right. exact Hy.
Qed.

Lemma for_each_raises {S A} (body : S → A → res S) (xs : list A) (st : S)
    (x : A) :
  In x xs → (∀ st, raises (body st x)) → raises (for_each body xs st).
Proof.
  intros Hx Hbody. revert st. induction xs as [|y xs IH]; intros st; [destruct Hx|].
  simpl. destruct Hx as [->|Hx].
  - destruct (Hbody st) as [e ->]. exists e. reflexivity.
  - destruct (body st y) as [st'|e]; [apply IH, Hx | exists e; reflexivity].
Qed.

Section FolderProperties.
Context {content : Type}.
Variables yaml_safe_load json_load : content → res val.
Variable fs : string → option content.

Lemma path_exists_Some (p : string) (c : content) :
  fs p = Some c → path_exists fs p = true.
Proof. intros H. unfold path_exists. rewrite H. reflexivity. Qed.

Lemma path_exists_None (p : string) : fs p = None → path_exists fs p = false.
Proof. intros H. unfold path_exists. rewrite H. reflexivity. Qed.

Lemma read_data_candidate (folder_path file_name tool_type : string) :
  In (file_name, tool_type) (file_patterns (basename folder_path)) →
  read_data yaml_safe_load json_load fs (join folder_path file_name) =
    match fs (join folder_path file_name) with
    | Some c => loader_of yaml_safe_load json_load tool_type c
    | None => Raise OSError
    end.
Proof.
  intros Hin. unfold read_data.
  destruct (join_suffix folder_path file_name) as [x Hx]. rewrite Hx.
  destruct Hin as [[= <- <-]|[[= <- <-]|[[= <- <-]|[[= <- <-]|[[= <- <-]|[]]]]]].
  - rewrite splitext_bioconda. reflexivity.
  - rewrite (proj1 (splitext_stem x _)). reflexivity.
  - rewrite (proj1 (proj2 (splitext_stem x _))). reflexivity.
  - rewrite (proj1 (proj2 (proj2 (splitext_stem x _)))). reflexivity.
  - rewrite (proj2 (proj2 (proj2 (splitext_stem x _)))). reflexivity.
Qed.

(** What one turn of the loop does for a candidate file. *)
Lemma visit_candidate (folder_path : string) (st : acc)
    (file_name tool_type : string) :
  In (file_name, tool_type) (file_patterns (basename folder_path)) →
  visit yaml_safe_load json_load fs folder_path st (file_name, tool_type) =
    match fs (join folder_path file_name) with
    | None => Ok st
    | Some c =>
        data ← loader_of yaml_safe_load json_load tool_type c;
        if is_none data
        then Ok (Acc (contents st ∪ {[ tool_type ]})
                   (fetched_metadata st) (extracted_page_metadata st))
        else
          extracted_data ←
            extract_data tool_type data SUMMARY_DATA_KEY_MAPPINGS;
          page_data ← extract_data tool_type data PAGE_DATA_KEY_MAPPINGS;
          Ok (Acc (contents st ∪ {[ tool_type ]})
                (dict_update (fetched_metadata st)
                   (filter_truthy extracted_data))
                (dict_update (extracted_page_metadata st)
                   (filter_truthy page_data)))
    end.
Proof.
  intros Hin. unfold visit. rewrite (read_data_candidate _ _ _ Hin).
  unfold path_exists.
  destruct (fs (join folder_path file_name)) as [c|]; reflexivity.
Qed.

Lemma visit_contents (folder_path : string) (st st' : acc)
    (pattern : string * string) :
  visit yaml_safe_load json_load fs folder_path st pattern = Ok st' →
  contents st' =
    if path_exists fs (join folder_path pattern.1)
    then contents st ∪ {[ pattern.2 ]} else contents st.
Proof.
  destruct pattern as [file_name tool_type]. unfold visit. simpl.
  destruct (path_exists fs (join folder_path file_name)); simpl.
  - destruct (read_data _ _ _ _) as [data|e]; simpl; [|discriminate].
    destruct (is_none data); [intros [= <-]; reflexivity|].
    destruct (extract_data _ _ SUMMARY_DATA_KEY_MAPPINGS); simpl; [|discriminate].
    destruct (extract_data _ _ PAGE_DATA_KEY_MAPPINGS); simpl; [|discriminate].
    intros [= <-]. reflexivity.
  - intros [= <-]. reflexivity.
Qed.

Lemma for_each_visit_contents (folder_path : string)
    (patterns : list (string * string)) (st st' : acc) :
  for_each (visit yaml_safe_load json_load fs folder_path) patterns st = Ok st' →
  contents st' =
    contents st ∪
    list_to_set
      (map snd (List.filter (λ p, path_exists fs (join folder_path p.1)) patterns)).
Proof.
  revert st. induction patterns as [|pattern patterns IH]; intros st; simpl.
  - intros [= <-]. set_solver.
  - intros (st1 & Hvisit & Hrest)%bind_returns.
    rewrite (IH _ Hrest), (visit_contents _ _ _ _ Hvisit).
    destruct (path_exists fs (join folder_path pattern.1)); simpl; set_solver.
Qed.

Lemma process_files_in_folder_eq (folder_path : string) :
  process_files_in_folder yaml_safe_load json_load fs folder_path =
    if has_candidate fs folder_path then
      st ← for_each (visit yaml_safe_load json_load fs folder_path)
             (file_patterns (basename folder_path)) (Acc ∅ [] []);
      Ok (metadata_record (basename folder_path) (contents st)
            (fetched_metadata st),
          page_metadata_record (basename folder_path) (contents st)
            (extracted_page_metadata st))
    else Ok (VDict [], VDict []).
Proof.
  unfold process_files_in_folder, has_candidate.
  destruct (existsb _ _); reflexivity.
Qed.

(** The check of [main] passes exactly for the folders with a candidate
    file. *)
Lemma process_truthy (folder_path : string) (metadata page_metadata : val) :
  process_files_in_folder yaml_safe_load json_load fs folder_path
    = Ok (metadata, page_metadata) →
  truthy metadata = has_candidate fs folder_path ∧
  truthy page_metadata = has_candidate fs folder_path ∧
  (has_candidate fs folder_path = true →
   getitem page_metadata "tool_name" = Ok (VStr (basename folder_path))).
Proof.
  rewrite process_files_in_folder_eq.
  destruct (has_candidate fs folder_path).
  - intros (st & _ & [= <- <-])%bind_returns. repeat split.
  - intros [= <- <-]. repeat split. discriminate.
Qed.

Lemma elem_of_kinds_present (folder_path tool_type : string) :
  tool_type ∈ kinds_present fs folder_path ↔
  ∃ file_name,
    In (file_name, tool_type) (file_patterns (basename folder_path)) ∧
    is_Some (fs (join folder_path file_name)).
Proof.
  unfold kinds_present. rewrite elem_of_list_to_set, list_elem_of_In, in_map_iff.
  split.
  - intros ([file_name kind] & Hkind & Hin). simpl in Hkind. subst kind.
    apply filter_In in Hin as [Hin Hex]. exists file_name. split; [exact Hin|].
    apply bool_decide_eq_true in Hex. exact Hex.
  - intros (file_name & Hin & Hex). exists (file_name, tool_type).
    split; [reflexivity|]. apply filter_In. split; [exact Hin|].
    apply bool_decide_eq_true. exact Hex.
Qed.

(** C3, amended. For every processed folder with a candidate file,
    [contents] is exactly the set of source kinds whose file exists in the
    folder, whatever parsing and extraction made of the file. *)
Theorem contents_are_kinds_present (folder_path : string)
    (metadata page_metadata : val) :
  has_candidate fs folder_path = true →
  process_files_in_folder yaml_safe_load json_load fs folder_path
    = Ok (metadata, page_metadata) →
  getitem metadata "contents"
    = Ok (list_of_set (kinds_present fs folder_path)) ∧
  getitem page_metadata "contents"
    = Ok (list_of_set (kinds_present fs folder_path)) ∧
  ∀ tool_type,
    tool_type ∈ kinds_present fs folder_path ↔
    ∃ file_name,
      In (file_name, tool_type) (file_patterns (basename folder_path)) ∧
      is_Some (fs (join folder_path file_name)).
Proof.
  intros Hcand. rewrite process_files_in_folder_eq, Hcand.
  intros (st & Hloop & [= <- <-])%bind_returns.
  apply for_each_visit_contents in Hloop. simpl in Hloop.
  assert (Hset : contents st = kinds_present fs folder_path).
  { rewrite Hloop. unfold kinds_present. set_solver. }
  rewrite Hset. repeat split; apply elem_of_kinds_present.
Qed.


Lemma assoc_get_dict_update_ne (d other : dict) (k : string) :
  ¬ In k (keys other) →
  assoc_get (dict_update d other) k = assoc_get d k.
Proof.
  unfold dict_update, keys. revert d.
  induction other as [|[k' v] other IH]; intros d Hk; [reflexivity|].
  simpl in *. rewrite IH by tauto.
  apply assoc_get_dict_set_ne. tauto.
Qed.

Lemma keys_filter_truthy (block : dict) (k : string) :
  In k (keys (filter_truthy block)) → In k (keys block).
Proof.
  unfold keys, filter_truthy. rewrite !in_map_iff.
  intros (kv & Hk & Hin). apply filter_In in Hin as [Hin _]. eauto.
Qed.

Lemma extract_data_keys (tool_type : string) (data : val)
    (key_mappings : list (string * table)) (block : dict) (k : string) :
  extract_data tool_type data key_mappings = Ok block →
  In k (keys block) → k = tool_type.
Proof.
  unfold extract_data. destruct (String.eqb tool_type "bioschemas").
  - intros (graph & _ & (entries & _ & (node & _ & H)%bind_returns)%bind_returns)%bind_returns.
    destruct (truthy node).
    + apply bind_returns in H as (b & _ & [= <-]). simpl. intros [<-|[]]. reflexivity.
    + injection H as <-. intros [].
  - intros (b & _ & [= <-])%bind_returns. simpl. intros [<-|[]]. reflexivity.
Qed.

Lemma visit_keeps_other (folder_path : string) (st st' : acc)
    (pattern : string * string) (k : string) :
  visit yaml_safe_load json_load fs folder_path st pattern = Ok st' →
  k ≠ pattern.2 →
  assoc_get (fetched_metadata st') k = assoc_get (fetched_metadata st) k ∧
  assoc_get (extracted_page_metadata st') k
    = assoc_get (extracted_page_metadata st) k.
Proof.
  destruct pattern as [file_name tool_type]. unfold visit. simpl.
  destruct (path_exists fs (join folder_path file_name)); simpl;
    [|intros [= <-]; tauto].
  destruct (read_data _ _ _ _) as [data|e]; simpl; [|discriminate].
  destruct (is_none data); [intros [= <-]; tauto|].
  destruct (extract_data _ _ SUMMARY_DATA_KEY_MAPPINGS) as [b1|] eqn:H1;
    simpl; [|discriminate].
  destruct (extract_data _ _ PAGE_DATA_KEY_MAPPINGS) as [b2|] eqn:H2;
    simpl; [|discriminate].
  intros [= <-] Hk. simpl.
  split; apply assoc_get_dict_update_ne; intros Hin%keys_filter_truthy;
    apply Hk; eauto using extract_data_keys.
Qed.

Lemma for_each_visit_keeps (folder_path : string)
    (patterns : list (string * string)) (st st' : acc) (k : string) :
  for_each (visit yaml_safe_load json_load fs folder_path) patterns st = Ok st' →
  ¬ In k (map snd patterns) →
  assoc_get (fetched_metadata st') k = assoc_get (fetched_metadata st) k ∧
  assoc_get (extracted_page_metadata st') k
    = assoc_get (extracted_page_metadata st) k.
Proof.
  revert st. induction patterns as [|pattern patterns IH]; intros st; simpl.
  - intros [= <-] _. tauto.
  - intros (st1 & Hvisit & Hrest)%bind_returns Hk.
    destruct (IH _ Hrest) as [-> ->]; [tauto|].
    apply (visit_keeps_other _ _ _ _ _ Hvisit). intros ->. tauto.
Qed.

(** The loop leaves at a kind what the turn of that kind has put there. *)
Lemma for_each_visit_at (folder_path : string)
    (patterns : list (string * string)) (st st' : acc)
    (pattern : string * string) (P : acc → Prop) :
  NoDup (map snd patterns) →
  In pattern patterns →
  (∀ st0 st1,
     visit yaml_safe_load json_load fs folder_path st0 pattern = Ok st1 →
     P st1) →
  (∀ st0 st1,
     P st0 →
     assoc_get (fetched_metadata st1) pattern.2
       = assoc_get (fetched_metadata st0) pattern.2 →
     assoc_get (extracted_page_metadata st1) pattern.2
       = assoc_get (extracted_page_metadata st0) pattern.2 →
     P st1) →
  for_each (visit yaml_safe_load json_load fs folder_path) patterns st = Ok st' →
  P st'.
Proof.
  intros Hnodup Hin Hset Hkeep. revert st.
  induction patterns as [|q patterns IH]; intros st; [destruct Hin|].
  simpl. intros (st1 & Hvisit & Hrest)%bind_returns.
  simpl in Hnodup. apply NoDup_cons in Hnodup as [Hq Hnodup].
  destruct Hin as [->|Hin].
  - destruct (for_each_visit_keeps _ _ _ _ pattern.2 Hrest) as [H1 H2].
    { rewrite <- list_elem_of_In. exact Hq. }
    apply (Hkeep st1); [eapply Hset, Hvisit | exact H1 | exact H2].
  - apply (IH Hnodup Hin _ Hrest).
Qed.

Lemma file_patterns_kinds (folder_name : string) :
  map snd (file_patterns folder_name)
    = ["bioconda"; "biocontainers"; "biotools"; "bioschemas"; "galaxy"].
Proof. reflexivity. Qed.

Lemma file_patterns_NoDup (folder_name : string) :
  NoDup (map snd (file_patterns folder_name)).
Proof.
  rewrite file_patterns_kinds.
  repeat (apply NoDup_cons; split; [set_solver|]). apply NoDup_nil_2.
Qed.


Lemma visit_absent (folder_path : string) (st : acc)
    (file_name tool_type : string) :
  fs (join folder_path file_name) = None →
  visit yaml_safe_load json_load fs folder_path st (file_name, tool_type) = Ok st.
Proof. intros H. unfold visit. rewrite (path_exists_None _ H). reflexivity. Qed.

Lemma has_candidate_true (folder_path file_name tool_type : string)
    (c : content) :
  In (file_name, tool_type) (file_patterns (basename folder_path)) →
  fs (join folder_path file_name) = Some c →
  has_candidate fs folder_path = true.
Proof.
  intros Hin Hfs. unfold has_candidate. apply existsb_exists.
  exists (file_name, tool_type). split; [exact Hin|].
  simpl. apply (path_exists_Some _ _ Hfs).
Qed.





Lemma resolve_keyless (data : val) (key : string) (rest : list string) :
  keyless data = true → resolve data (key :: rest) = VNone.
Proof.
  destruct data as [| | | | | |[|kv m]]; try discriminate; intros _;
    try reflexivity.
  simpl. apply resolve_none.
Qed.

Lemma unresolved_keyless (data : val) (v : field_spec) :
  keyless data = true → descends v = true → unresolved data v = true.
Proof.
  intros Hdata.
  induction v as [path|fields IH] using field_spec_nested_ind; simpl.
  - destruct path as [|key rest]; [discriminate|]. intros _.
    rewrite (resolve_keyless _ _ _ Hdata). reflexivity.
  - intros Hall. apply forallb_forall. intros kv Hkv.
    rewrite Forall_forall in IH. apply IH.
    + apply list_elem_of_In, Hkv.
    + rewrite forallb_forall in Hall. apply Hall, Hkv.
Qed.

Lemma evaluate_keyless (data : val) (mappings : table) :
  keyless data = true →
  forallb (λ kv, descends kv.2) mappings = true →
  evaluate data mappings = nulls mappings.
Proof.
  intros Hdata Hall.
  assert (H : evaluate_field data (Group mappings) = nulls_field (Group mappings)).
  { apply evaluate_unresolved, unresolved_keyless; assumption. }
  injection H as H. exact H.
Qed.

Lemma assoc_get_default_Forall {A} (P : A → Prop) (m : list (string * A))
    (k : string) (d : A) :
  P d → Forall (λ kv, P kv.2) m → P (default d (assoc_get m k)).
Proof.
  intros Hd. induction 1 as [|[k' v] m Hv _ IH]; simpl; [exact Hd|].
  destruct (String.eqb k' k); [exact Hv | exact IH].
Qed.

Lemma tables_descend (tool_type : string) :
  forallb (λ kv, descends kv.2) (summary_table tool_type) = true ∧
  forallb (λ kv, descends kv.2) (page_table tool_type) = true.
Proof.
  split;
    apply (assoc_get_default_Forall
             (λ t : table, forallb (λ kv, descends kv.2) t = true));
    try reflexivity; repeat constructor.
Qed.


Lemma main_body_candidate (data_dir root : string) (out : output)
    (metadata page_metadata : val) :
  String.eqb root data_dir = false →
  process_files_in_folder yaml_safe_load json_load fs root
    = Ok (metadata, page_metadata) →
  main_body yaml_safe_load json_load fs data_dir out root =
    Ok (if has_candidate fs root
        then Output (combined_metadata out ++ [metadata])
               (saved out ++
                  [("tools/" +:+ basename root +:+ ".json", page_metadata)])
        else out).
Proof.
  intros Hroot Hprocess. unfold main_body. rewrite Hroot, Hprocess. simpl.
  destruct (process_truthy _ _ _ Hprocess) as (-> & -> & Hname).
  destruct (has_candidate fs root); [|reflexivity].
  simpl. rewrite (Hname eq_refl). reflexivity.
Qed.

Lemma visit_raises_loader (folder_path : string) (st : acc)
    (file_name tool_type : string) (c : content) (e : exn) :
  In (file_name, tool_type) (file_patterns (basename folder_path)) →
  fs (join folder_path file_name) = Some c →
  loader_of yaml_safe_load json_load tool_type c = Raise e →
  visit yaml_safe_load json_load fs folder_path st (file_name, tool_type)
    = Raise e.
Proof.
  intros Hin Hfs Hload.
  rewrite (visit_candidate _ _ _ _ Hin), Hfs, Hload. reflexivity.
Qed.

Lemma visit_raises_root (folder_path : string) (st : acc) (c : content)
    (data : val) :
  fs (join folder_path (basename folder_path +:+ ".bioschemas.jsonld"))
    = Some c →
  json_load c = Ok data →
  is_none data = false →
  isinstance_dict data = false →
  visit yaml_safe_load json_load fs folder_path st
    (basename folder_path +:+ ".bioschemas.jsonld", "bioschemas")
    = Raise AttributeError.
Proof.
  intros Hfs Hload Hdata Hroot.
  rewrite visit_candidate, Hfs by (simpl; tauto).
  change (loader_of yaml_safe_load json_load "bioschemas" c) with (json_load c).
  rewrite Hload, bind_Ok, Hdata.
  rewrite (extract_data_root_raises data SUMMARY_DATA_KEY_MAPPINGS Hroot).
  reflexivity.
Qed.

Lemma visit_returns (folder_path : string) (st : acc)
    (file_name tool_type : string) :
  In (file_name, tool_type) (file_patterns (basename folder_path)) →
  (∀ c, fs (join folder_path file_name) = Some c →
        ∃ data,
          loader_of yaml_safe_load json_load tool_type c = Ok data ∧
          (tool_type = "bioschemas" → is_none data = false →
           graph_of_mappings data = true)) →
  returns
    (visit yaml_safe_load json_load fs folder_path st (file_name, tool_type)).
Proof.
  intros Hin Hfile. rewrite (visit_candidate _ _ _ _ Hin).
  destruct (fs (join folder_path file_name)) as [c|]; [|eexists; reflexivity].
  destruct (Hfile c eq_refl) as (data & -> & Hgraph). rewrite bind_Ok.
  destruct (is_none data) eqn:Hdata; [eexists; reflexivity|].
  destruct (String.eqb tool_type "bioschemas") eqn:Hkind.
  - apply String.eqb_eq in Hkind. subst tool_type.
    specialize (Hgraph eq_refl eq_refl).
    destruct (extract_data_graph_returns data SUMMARY_DATA_KEY_MAPPINGS Hgraph)
      as [b1 ->].
    destruct (extract_data_graph_returns data PAGE_DATA_KEY_MAPPINGS Hgraph)
      as [b2 ->].
    eexists. reflexivity.
  - rewrite !extract_data_direct by exact Hkind. eexists. reflexivity.
Qed.

Lemma process_raises (folder_path : string) (pattern : string * string) :
  In pattern (file_patterns (basename folder_path)) →
  is_Some (fs (join folder_path pattern.1)) →
  (∀ st, raises (visit yaml_safe_load json_load fs folder_path st pattern)) →
  raises (process_files_in_folder yaml_safe_load json_load fs folder_path).
Proof.
  intros Hin [c Hfs] Hvisit. rewrite process_files_in_folder_eq.
  destruct pattern as [file_name tool_type].
  rewrite (has_candidate_true _ _ _ _ Hin Hfs).
  destruct (for_each_raises _ _ (Acc ∅ [] []) _ Hin Hvisit) as [e ->].
  exists e. reflexivity.
Qed.

Lemma visit_untyped_graph (folder_path : string) (st : acc) (c : content)
    (data : val) :
  fs (join folder_path (basename folder_path +:+ ".bioschemas.jsonld"))
    = Some c →
  json_load c = Ok data →
  no_software_node data = true →
  visit yaml_safe_load json_load fs folder_path st
    (basename folder_path +:+ ".bioschemas.jsonld", "bioschemas")
    = Ok (Acc (contents st ∪ {[ "bioschemas" ]})
            (fetched_metadata st) (extracted_page_metadata st)).
Proof.
  intros Hfs Hload Hgraph.
  rewrite visit_candidate, Hfs by (simpl; tauto).
  change (loader_of yaml_safe_load json_load "bioschemas" c) with (json_load c).
  rewrite Hload, bind_Ok.
  assert (is_none data = false) as -> by (destruct data; discriminate || reflexivity).
  rewrite (extract_data_no_node data SUMMARY_DATA_KEY_MAPPINGS Hgraph), bind_Ok.
  rewrite (extract_data_no_node data PAGE_DATA_KEY_MAPPINGS Hgraph), bind_Ok.
  reflexivity.
Qed.

(** A linked-data document whose root is not a mapping: [data.get] raises. *)
Lemma process_raises_root (folder_path : string) (c : content) (data : val) :
  fs (join folder_path (basename folder_path +:+ ".bioschemas.jsonld"))
    = Some c →
  json_load c = Ok data →
  is_none data = false →
  isinstance_dict data = false →
  raises (process_files_in_folder yaml_safe_load json_load fs folder_path).
Proof.
  intros Hfs Hload Hdata Hroot.
  apply (process_raises _
           (basename folder_path +:+ ".bioschemas.jsonld", "bioschemas"));
    [simpl; tauto | eexists; exact Hfs |].
  intros st. exists AttributeError. eapply visit_raises_root; eassumption.
Qed.

(** C4, amended. For every folder: a candidate file that its loader
    rejects makes folder processing raise; the error is not recovered.
    When every candidate file present loads, and the linked-data document,
    if present and not null, is a mapping whose [@graph] is absent or a
    sequence of mappings, folder processing returns; for the other kinds
    every parsed shape is accepted, and a record that is a scalar or an
    empty mapping gives the block of nulls under either table. *)
Theorem malformed_file_outcome (folder_path : string) :
  (∀ file_name tool_type c e,
     In (file_name, tool_type) (file_patterns (basename folder_path)) →
     fs (join folder_path file_name) = Some c →
     loader_of yaml_safe_load json_load tool_type c = Raise e →
     raises
       (process_files_in_folder yaml_safe_load json_load fs folder_path)) ∧
  ((∀ file_name tool_type c,
      In (file_name, tool_type) (file_patterns (basename folder_path)) →
      fs (join folder_path file_name) = Some c →
      ∃ data,
        loader_of yaml_safe_load json_load tool_type c = Ok data ∧
        (tool_type = "bioschemas" → is_none data = false →
         graph_of_mappings data = true)) →
   returns
     (process_files_in_folder yaml_safe_load json_load fs folder_path)) ∧
  (∀ tool_type data,
     String.eqb tool_type "bioschemas" = false →
     keyless data = true →
     extract_data tool_type data SUMMARY_DATA_KEY_MAPPINGS
       = Ok [(tool_type, VDict (nulls (summary_table tool_type)))] ∧
     extract_data tool_type data PAGE_DATA_KEY_MAPPINGS
       = Ok [(tool_type, VDict (nulls (page_table tool_type)))]).
Proof.
  split; [|split].
  - intros file_name tool_type c e Hin Hfs Hload.
    apply (process_raises _ (file_name, tool_type) Hin); [eexists; exact Hfs|].
    intros st. exists e. eapply visit_raises_loader; eassumption.
  - intros Hfiles. rewrite process_files_in_folder_eq.
    destruct (has_candidate fs folder_path); [|eexists; reflexivity].
    destruct (for_each_returns
                (visit yaml_safe_load json_load fs folder_path)
                (file_patterns (basename folder_path)) (Acc ∅ [] []))
      as [st ->]; [|eexists; reflexivity].
    intros [file_name tool_type] st Hin. apply visit_returns; [exact Hin|].
    intros c Hfs. eapply Hfiles; eassumption.
  - intros tool_type data Hkind Hkeyless.
    destruct (tables_descend tool_type) as [Ds Dp].
    rewrite !extract_data_direct by exact Hkind.
    fold (summary_table tool_type) (page_table tool_type).
    rewrite !evaluate_keyless by assumption. split; reflexivity.
Qed.

End FolderProperties.

(** Turns of the loop over files that do not exist. *)
Ltac skip_absent :=
  repeat (rewrite visit_absent by assumption; rewrite bind_Ok; cbv beta).

Lemma has_candidate_remove_file {content} (fs : string → option content)
    (folder_path path : string) :
  (∀ file_name tool_type,
     In (file_name, tool_type) (file_patterns (basename folder_path)) →
     join folder_path file_name ≠ path →
     fs (join folder_path file_name) = None) →
  has_candidate (remove_file fs path) folder_path = false.
Proof.
  intros Hnone. unfold has_candidate.
  apply not_true_is_false. intros ([file_name tool_type] & Hin & Hex)%existsb_exists.
  simpl in Hex. unfold path_exists, remove_file in Hex.
  destruct (String.eqb (join folder_path file_name) path) eqn:E;
    [discriminate|].
  apply String.eqb_neq in E. rewrite (Hnone _ _ Hin E) in Hex. discriminate.
Qed.

(** C2, amended. Processing a folder that holds only a bioschemas file
    whose [@graph] is a sequence of mappings, none typed
    [sc:SoftwareApplication], gives empty [fetched_metadata] and
    [page_metadata], as the bioschemas file contributes no block; but
    [contents] is the one kind [bioschemas] and the folder enters the
    combined output, whereas the same folder without the file gives two
    empty results and is left out. *)
Theorem untyped_graph_only {content} (yaml_safe_load json_load : content → res val)
    (fs : string → option content) (folder_path data_dir : string)
    (c : content) (data : val) (out : output) :
  fs (join folder_path (basename folder_path +:+ ".bioschemas.jsonld"))
    = Some c →
  json_load c = Ok data →
  no_software_node data = true →
  (∀ file_name tool_type,
     In (file_name, tool_type) (file_patterns (basename folder_path)) →
     tool_type ≠ "bioschemas" →
     fs (join folder_path file_name) = None) →
  String.eqb folder_path data_dir = false →
  process_files_in_folder yaml_safe_load json_load fs folder_path
    = Ok (metadata_record (basename folder_path) {[ "bioschemas" ]} [],
          page_metadata_record (basename folder_path) {[ "bioschemas" ]} []) ∧
  process_files_in_folder yaml_safe_load json_load
    (remove_file fs
       (join folder_path (basename folder_path +:+ ".bioschemas.jsonld")))
    folder_path
    = Ok (VDict [], VDict []) ∧
  main_body yaml_safe_load json_load fs data_dir out folder_path
    = Ok (Output
            (combined_metadata out ++
               [metadata_record (basename folder_path) {[ "bioschemas" ]} []])
            (saved out ++
               [("tools/" +:+ basename folder_path +:+ ".json",
                 page_metadata_record (basename folder_path)
                   {[ "bioschemas" ]} [])])) ∧
  main_body yaml_safe_load json_load
    (remove_file fs
       (join folder_path (basename folder_path +:+ ".bioschemas.jsonld")))
    data_dir out folder_path
    = Ok out.
Proof.
  intros Hfs Hload Hgraph Hothers Hroot.
  assert (Hcand : has_candidate fs folder_path = true).
  { apply (has_candidate_true fs folder_path
             (basename folder_path +:+ ".bioschemas.jsonld") "bioschemas" c);
      [simpl; tauto | exact Hfs]. }
  assert (Hprocess :
    process_files_in_folder yaml_safe_load json_load fs folder_path
    = Ok (metadata_record (basename folder_path) {[ "bioschemas" ]} [],
          page_metadata_record (basename folder_path) {[ "bioschemas" ]} [])).
  { pose proof (Hothers _ "bioconda" ltac:(simpl; tauto) ltac:(discriminate))
      as H1.
    pose proof (Hothers _ "biocontainers" ltac:(simpl; tauto)
                  ltac:(discriminate)) as H2.
    pose proof (Hothers _ "biotools" ltac:(simpl; tauto) ltac:(discriminate))
      as H3.
    pose proof (Hothers _ "galaxy" ltac:(simpl; tauto) ltac:(discriminate))
      as H4.
    rewrite process_files_in_folder_eq, Hcand.
    unfold file_patterns, for_each.
    skip_absent.
    rewrite (visit_untyped_graph _ _ _ _ _ c data Hfs Hload Hgraph), bind_Ok.
    skip_absent.
    simpl. rewrite (left_id_L ∅ (∪)). reflexivity. }
  assert (Hbare :
    has_candidate
      (remove_file fs
         (join folder_path (basename folder_path +:+ ".bioschemas.jsonld")))
      folder_path = false).
  { apply has_candidate_remove_file. intros file_name tool_type Hin Hpath.
    apply (Hothers _ _ Hin). intros ->. apply Hpath.
    destruct Hin as [[= <-]|[[= <-]|[[= <-]|[[= <-]|[[= <-]|[]]]]]].
    reflexivity. }
  assert (Hprocess' :
    process_files_in_folder yaml_safe_load json_load
      (remove_file fs
         (join folder_path (basename folder_path +:+ ".bioschemas.jsonld")))
      folder_path = Ok (VDict [], VDict [])).
  { rewrite process_files_in_folder_eq, Hbare. reflexivity. }
  split; [exact Hprocess|]. split; [exact Hprocess'|]. split.
  - rewrite (main_body_candidate _ _ _ _ _ _ _ _ Hroot Hprocess), Hcand.
    reflexivity.
  - rewrite (main_body_candidate _ _ _ _ _ _ _ _ Hroot Hprocess'), Hbare.
    reflexivity.
Qed.


Section DriverProperties.
Context {content : Type}.
Variables yaml_safe_load json_load : content → res val.
Variable fs : string → option content.

(** C7. Scenario A: for a folder named [foo] that holds only
    [foo.biotools.json], read by the JSON loader as
    [{license: MIT, description: x, version: 1.0}], processing returns a
    summary whose [contents] is the list of the one kind [biotools] and
    whose [fetched_metadata] maps [biotools] to a dict equal to
    [{license: MIT, summary: x, version: 1.0, addition_date: null,
    last_update_date: null}] (the same items, in the order of the mapping
    table). *)
Theorem scenario_a (folder_path : string) (c : content) :
  basename folder_path = "foo" →
  fs (join folder_path "foo.biotools.json") = Some c →
  json_load c = Ok biotools_record →
  fs (join folder_path "bioconda_foo.yaml") = None →
  fs (join folder_path "foo.biocontainers.yaml") = None →
  fs (join folder_path "foo.bioschemas.jsonld") = None →
  fs (join folder_path "foo.galaxy.json") = None →
  ∃ (metadata page_metadata : val) (fetched block : dict),
    process_files_in_folder yaml_safe_load json_load fs folder_path
      = Ok (metadata, page_metadata) ∧
    getitem metadata "contents" = Ok (VList [VStr "biotools"]) ∧
    getitem metadata "fetched_metadata" = Ok (VDict fetched) ∧
    assoc_get fetched "biotools" = Some (VDict block) ∧
    block ≡ₚ scenario_a_expected.
Proof.
  intros Hname Hfs Hload H1 H2 H3 H4.
  assert (Hin : In ("foo.biotools.json", "biotools")
                  (file_patterns (basename folder_path))).
  { rewrite Hname. right. right. left. reflexivity. }
  rewrite process_files_in_folder_eq, (has_candidate_true _ _ _ _ _ Hin Hfs).
  pose proof (visit_candidate yaml_safe_load json_load fs folder_path
                (Acc ∅ [] []) _ _ Hin) as Hvisit.
  rewrite Hfs in Hvisit.
  change (loader_of yaml_safe_load json_load "biotools" c)
    with (json_load c) in Hvisit.
  rewrite Hload, bind_Ok in Hvisit.
  rewrite Hname.
  change (file_patterns "foo")
    with [ ("bioconda_foo.yaml", "bioconda");
           ("foo.biocontainers.yaml", "biocontainers");
           ("foo.biotools.json", "biotools");
           ("foo.bioschemas.jsonld", "bioschemas");
           ("foo.galaxy.json", "galaxy") ].
  unfold for_each. skip_absent. rewrite Hvisit.
  change (is_none biotools_record) with false. cbv iota.
  rewrite !extract_data_direct, !bind_Ok by reflexivity. cbv beta.
  skip_absent.
  eexists _, _, _, _. split; [reflexivity|].
  split; [|split; [reflexivity|split; [reflexivity|]]].
  - simpl. unfold list_of_set.
    rewrite (left_id_L ∅ (∪)), elements_singleton. reflexivity.
  - apply Permutation_cons; [reflexivity|].
    apply Permutation_cons; [reflexivity|].
    symmetry. apply (Permutation_cons_app [_; _] []). reflexivity.
Qed.

Lemma main_loop (data_dir : string) (walk : list string) (out0 out : output) :
  for_each (main_body yaml_safe_load json_load fs data_dir) walk out0 = Ok out →
  ∃ records : list (val * val),
    Forall2
      (λ root r,
         process_files_in_folder yaml_safe_load json_load fs root = Ok r)
      (contributing fs data_dir walk) records ∧
    combined_metadata out = combined_metadata out0 ++ records.*1 ∧
    saved out =
      saved out0 ++
      zip_with (λ root r, ("tools/" +:+ basename root +:+ ".json", r.2))
        (contributing fs data_dir walk) records.
Proof.
  revert out0. induction walk as [|root walk IH]; intros out0; simpl.
  - intros [= <-]. exists []. rewrite !app_nil_r. repeat split. constructor.
  - intros (out1 & Hbody & Hrest)%bind_returns.
    destruct (IH _ Hrest) as (records & Hrecords & Hcombined & Hsaved).
    destruct (String.eqb root data_dir) eqn:Hroot.
    + unfold main_body in Hbody. rewrite Hroot in Hbody.
      injection Hbody as <-. exists records. simpl. auto.
    + destruct (process_files_in_folder yaml_safe_load json_load fs root)
        as [[metadata page_metadata]|e] eqn:Hprocess.
      * rewrite (main_body_candidate _ _ _ _ _ _ _ _ Hroot Hprocess) in Hbody.
        injection Hbody as <-. simpl.
        destruct (has_candidate fs root).
        -- exists ((metadata, page_metadata) :: records). simpl in *.
           rewrite Hcombined, Hsaved, <- !app_assoc. simpl.
           split; [constructor; assumption|]. split; reflexivity.
        -- exists records. auto.
      * unfold main_body in Hbody. rewrite Hroot, Hprocess in Hbody.
        discriminate.
Qed.

(** C1, amended. Whenever [main] returns, Combined Metadata holds, in walk
    order, exactly the summary records of the roots other than the data
    directory that have at least one of the five candidate files, and a page
    file [tools/<tool>.json] is written for exactly those roots.  Whether
    the inner metadata mappings are empty plays no part: a folder with a
    candidate file and empty extractions is not skipped. *)
Theorem combined_metadata_iff_candidate (data_dir : string)
    (walk : list string) (out : output) :
  main yaml_safe_load json_load fs data_dir walk = Ok out →
  ∃ records : list (val * val),
    Forall2
      (λ root r,
         process_files_in_folder yaml_safe_load json_load fs root = Ok r)
      (contributing fs data_dir walk) records ∧
    combined_metadata out = records.*1 ∧
    saved out =
      zip_with (λ root r, ("tools/" +:+ basename root +:+ ".json", r.2))
        (contributing fs data_dir walk) records
      ++ [("combined_metadata.json", VList records.*1)].
Proof.
  unfold main. intros (out1 & Hloop & [= <-])%bind_returns.
  destruct (main_loop _ _ _ _ Hloop) as (records & Hrecords & Hc & Hs).
  exists records. simpl in *. rewrite Hc, Hs. auto.
Qed.

End DriverProperties.

(** ** The concrete disk *)

(** C1, as stated, fails: the folder [data/foo] holds a linked-data file
    without a software node, so its summary extraction and its page
    extraction are both empty, and yet its summary record is in Combined
    Metadata and its page file is written. *)
Lemma empty_extraction_contributes :
  process_files_in_folder load load disk_person "data/foo"
    = Ok (VDict [ ("tool_name", VStr "foo");
                  ("contents", VList [VStr "bioschemas"]);
                  ("fetched_metadata", VDict []) ],
          VDict [ ("tool_name", VStr "foo");
                  ("contents", VList [VStr "bioschemas"]);
                  ("page_metadata", VDict []) ])
  ∧ main load load disk_person "data" ["data"; "data/foo"]
    = Ok (Output
            [ VDict [ ("tool_name", VStr "foo");
                      ("contents", VList [VStr "bioschemas"]);
                      ("fetched_metadata", VDict []) ] ]
            [ ("tools/foo.json",
               VDict [ ("tool_name", VStr "foo");
                       ("contents", VList [VStr "bioschemas"]);
                       ("page_metadata", VDict []) ]);
              ("combined_metadata.json",
               VList [ VDict [ ("tool_name", VStr "foo");
                               ("contents", VList [VStr "bioschemas"]);
                               ("fetched_metadata", VDict []) ] ]) ]).
Proof. split; vm_compute; reflexivity. Qed.

Lemma combined_metadata_iff_candidate_witness :
  ∃ records : list (val * val),
    Forall2
      (λ root r, process_files_in_folder load load disk_person root = Ok r)
      (contributing disk_person "data" ["data"; "data/foo"]) records ∧
    combined_metadata out_person = records.*1 ∧
    saved out_person =
      zip_with (λ root r, ("tools/" +:+ basename root +:+ ".json", r.2))
        (contributing disk_person "data" ["data"; "data/foo"]) records
      ++ [("combined_metadata.json", VList records.*1)].
Proof.
  apply (combined_metadata_iff_candidate load load disk_person
           "data" ["data"; "data/foo"] out_person).
  vm_compute. reflexivity.
Defined.

(** C2, as stated, fails: with the linked-data file without a software
    node the folder yields two records, [contents] naming [bioschemas], and
    enters the combined output; without the file it yields two empty
    results and is left out. *)
Lemma untyped_graph_counterexample :
  disk_person "data/foo/foo.bioschemas.jsonld" = Some (Document person_graph)
  ∧ no_software_node person_graph = true
  ∧ process_files_in_folder load load disk_person "data/foo"
    = Ok (VDict [ ("tool_name", VStr "foo");
                  ("contents", VList [VStr "bioschemas"]);
                  ("fetched_metadata", VDict []) ],
          VDict [ ("tool_name", VStr "foo");
                  ("contents", VList [VStr "bioschemas"]);
                  ("page_metadata", VDict []) ])
  ∧ process_files_in_folder load load
      (remove_file disk_person "data/foo/foo.bioschemas.jsonld") "data/foo"
    = Ok (VDict [], VDict [])
  ∧ combined_metadata <$> main load load disk_person "data" ["data"; "data/foo"]
    = Ok [ VDict [ ("tool_name", VStr "foo");
                   ("contents", VList [VStr "bioschemas"]);
                   ("fetched_metadata", VDict []) ] ]
  ∧ combined_metadata <$>
      main load load
        (remove_file disk_person "data/foo/foo.bioschemas.jsonld")
        "data" ["data"; "data/foo"]
    = Ok [].
Proof. repeat split; vm_compute; reflexivity. Qed.

Lemma untyped_graph_only_witness :
  process_files_in_folder load load disk_person "data/foo"
    = Ok (metadata_record "foo" {[ "bioschemas" ]} [],
          page_metadata_record "foo" {[ "bioschemas" ]} []) ∧
  process_files_in_folder load load
    (remove_file disk_person "data/foo/foo.bioschemas.jsonld") "data/foo"
    = Ok (VDict [], VDict []) ∧
  main_body load load disk_person "data" (Output [] []) "data/foo"
    = Ok (Output
            [metadata_record "foo" {[ "bioschemas" ]} []]
            [("tools/foo.json",
              page_metadata_record "foo" {[ "bioschemas" ]} [])]) ∧
  main_body load load
    (remove_file disk_person "data/foo/foo.bioschemas.jsonld")
    "data" (Output [] []) "data/foo"
    = Ok (Output [] []).
Proof.
  apply (untyped_graph_only load load disk_person "data/foo" "data"
           (Document person_graph) person_graph (Output [] [])).
  - reflexivity.
  - reflexivity.
  - reflexivity.
  - intros file_name tool_type
      [[= <- <-]|[[= <- <-]|[[= <- <-]|[[= <- <-]|[[= <- <-]|[]]]]]] Hkind;
      try reflexivity.
    destruct Hkind. reflexivity.
  - reflexivity.
Defined.

(** C3, as stated, fails: [bioschemas] is in [contents] although the file
    gave no extracted record under either table, and [galaxy] is in
    [contents] although the file read as [null] and nothing was extracted. *)
Lemma contents_counterexample :
  process_files_in_folder load load disk_person "data/foo"
    = Ok (VDict [ ("tool_name", VStr "foo");
                  ("contents", VList [VStr "bioschemas"]);
                  ("fetched_metadata", VDict []) ],
          VDict [ ("tool_name", VStr "foo");
                  ("contents", VList [VStr "bioschemas"]);
                  ("page_metadata", VDict []) ])
  ∧ extract_data "bioschemas" person_graph SUMMARY_DATA_KEY_MAPPINGS = Ok []
  ∧ extract_data "bioschemas" person_graph PAGE_DATA_KEY_MAPPINGS = Ok []
  ∧ disk_null "data/foo/foo.galaxy.json" = Some (Document VNone)
  ∧ process_files_in_folder load load disk_null "data/foo"
    = Ok (VDict [ ("tool_name", VStr "foo");
                  ("contents", VList [VStr "galaxy"]);
                  ("fetched_metadata", VDict []) ],
          VDict [ ("tool_name", VStr "foo");
                  ("contents", VList [VStr "galaxy"]);
                  ("page_metadata", VDict []) ]).
Proof. repeat split; vm_compute; reflexivity. Qed.

Lemma contents_are_kinds_present_witness :
  getitem (metadata_record "foo" {[ "bioschemas" ]} []) "contents"
    = Ok (list_of_set (kinds_present disk_person "data/foo")) ∧
  getitem (page_metadata_record "foo" {[ "bioschemas" ]} []) "contents"
    = Ok (list_of_set (kinds_present disk_person "data/foo")) ∧
  ∀ tool_type,
    tool_type ∈ kinds_present disk_person "data/foo" ↔
    ∃ file_name,
      In (file_name, tool_type) (file_patterns (basename "data/foo")) ∧
      is_Some (disk_person (join "data/foo" file_name)).
Proof.
  apply (contents_are_kinds_present load load disk_person "data/foo").
  - reflexivity.
  - vm_compute. reflexivity.
Defined.

(** C4, as stated, fails: a tool-registry file the JSON loader rejects
    makes folder processing, and the whole run, raise; and so does a
    linked-data document whose root is a sequence. *)
Lemma malformed_file_counterexample :
  disk_malformed "data/foo/foo.biotools.json" = Some Malformed
  ∧ load Malformed = Raise ParseError
  ∧ process_files_in_folder load load disk_malformed "data/foo"
    = Raise ParseError
  ∧ main load load disk_malformed "data" ["data"; "data/foo"]
    = Raise ParseError
  ∧ disk_list_root "data/foo/foo.bioschemas.jsonld"
    = Some (Document (VList []))
  ∧ process_files_in_folder load load disk_list_root "data/foo"
    = Raise AttributeError
  ∧ main load load disk_list_root "data" ["data"; "data/foo"]
    = Raise AttributeError.
Proof. repeat split; vm_compute; reflexivity. Qed.

Lemma malformed_file_outcome_witness :
  raises (process_files_in_folder load load disk_malformed "data/foo")
  ∧ returns (process_files_in_folder load load disk_person "data/foo")
  ∧ extract_data "galaxy" (VInt 7) SUMMARY_DATA_KEY_MAPPINGS
    = Ok [("galaxy", VDict (nulls (summary_table "galaxy")))]
  ∧ extract_data "galaxy" (VInt 7) PAGE_DATA_KEY_MAPPINGS
    = Ok [("galaxy", VDict (nulls (page_table "galaxy")))].
Proof.
  split; [|split].
  - apply (proj1 (malformed_file_outcome load load disk_malformed "data/foo")
             "foo.biotools.json" "biotools" Malformed ParseError).
    + right. right. left. reflexivity.
    + reflexivity.
    + reflexivity.
  - apply (proj1 (proj2 (malformed_file_outcome load load disk_person
                           "data/foo"))).
    intros file_name tool_type c
      [[= <- <-]|[[= <- <-]|[[= <- <-]|[[= <- <-]|[[= <- <-]|[]]]]]];
      try discriminate.
    intros [= <-]. exists person_graph. split; reflexivity.
  - apply (proj2 (proj2 (malformed_file_outcome load load disk_person
                           "data/foo"))
             "galaxy" (VInt 7)); reflexivity.
Defined.

Lemma scenario_a_witness :
  ∃ (metadata page_metadata : val) (fetched block : dict),
    process_files_in_folder load load disk_scenario_a "data/foo"
      = Ok (metadata, page_metadata) ∧
    getitem metadata "contents" = Ok (VList [VStr "biotools"]) ∧
    getitem metadata "fetched_metadata" = Ok (VDict fetched) ∧
    assoc_get fetched "biotools" = Some (VDict block) ∧
    block ≡ₚ scenario_a_expected.
Proof.
  apply (scenario_a load load disk_scenario_a "data/foo"
           (Document biotools_record)); reflexivity.
Defined.


(** * Further properties *)

(** ** The path walker and the evaluator, further *)

(** X1. Walking a concatenated path is walking its first part and then,
    from the value found, its second part. *)
Theorem traverse_keys_app (d : val) (p q : list string) :
  traverse_keys d (p ++ q) = traverse_keys d p ≫= λ v, traverse_keys v q.
Proof.
  rewrite (traverse_keys_resolve d p), bind_Ok.
  rewrite !traverse_keys_resolve, resolve_app. reflexivity.
Qed.

(** X2. A value stored under a chain of keys is found again by the walk
    along those keys, also when levels of the chain are wrapped in
    one-element lists. *)
Theorem traverse_keys_nest (steps : list (string * bool)) (v : val) :
  traverse_keys (nest steps v) steps.*1 = Ok v.
Proof.
  induction steps as [|[key wrapped] steps IH]; [reflexivity|].
  destruct wrapped; simpl; rewrite String.eqb_refl; exact IH.
Qed.

Lemma has_shape_evaluate (d : val) (v : field_spec) :
  has_shape v (evaluate_field d v) = true.
Proof.
  induction v as [path|fields IH] using field_spec_nested_ind; simpl.
  - destruct (truthy (resolve d path)) eqn:Hr; [rewrite Hr; apply orb_true_r|].
    reflexivity.
  - induction IH as [|[k v] fields Hv _ IHfields]; [reflexivity|].
    simpl in *. rewrite String.eqb_refl, Hv, IHfields. reflexivity.
Qed.

(** X3. [extract] returns on every record and table; its output has the
    field names of the table, in order, and the shape of the table: a null
    or a truthy value at every path, a dict shaped as the group at every
    nested group. *)
Theorem extract_keeps_shape (d : val) (mappings : table) :
  ∃ out : dict,
    extract d mappings = Ok out ∧
    keys out = keys mappings ∧
    has_shape (Group mappings) (VDict out) = true.
Proof.
  exists (evaluate d mappings).
  split; [apply extract_evaluate|]. split; [apply keys_map|].
  apply (has_shape_evaluate d (Group mappings)).
Qed.

(** ** The adapter, further *)

Lemma next_typed_first (pre post : list val) (node : val) :
  forallb other_node pre = true →
  software_node node = true →
  next_typed (pre ++ node :: post) "sc:SoftwareApplication" = Ok node.
Proof.
  intros Hpre Hnode. induction pre as [|entry pre IH]; simpl.
  - destruct node; try discriminate. simpl in *. rewrite Hnode. reflexivity.
  - simpl in Hpre. apply andb_prop in Hpre as [Hentry Hpre].
    destruct entry; try discriminate. simpl in *.
    destruct (eq_str _ _); [discriminate | apply IH, Hpre].
Qed.

Lemma next_typed_stuck (pre post : list val) (entry : val) :
  forallb other_node pre = true →
  isinstance_dict entry = false →
  next_typed (pre ++ entry :: post) "sc:SoftwareApplication"
    = Raise AttributeError.
Proof.
  intros Hpre Hentry. induction pre as [|e pre IH]; simpl.
  - destruct entry; try discriminate; reflexivity.
  - simpl in Hpre. apply andb_prop in Hpre as [He Hpre].
    destruct e; try discriminate. simpl in *.
    destruct (eq_str _ _); [discriminate | apply IH, Hpre].
Qed.

Lemma software_node_truthy (node : val) :
  software_node node = true → truthy node = true.
Proof.
  destruct node as [| | | | | |[|kv e]]; try discriminate; reflexivity.
Qed.

(** The two results [extract_data] can return. *)
Lemma extract_data_shape (tool_type : string) (data : val)
    (key_mappings : list (string * table)) (block : dict) :
  extract_data tool_type data key_mappings = Ok block →
  block = [] ∨
  ∃ record,
    block =
      [(tool_type,
        VDict (evaluate record
                 (default [] (assoc_get key_mappings tool_type))))].
Proof.
  unfold extract_data. destruct (String.eqb tool_type "bioschemas").
  - intros (graph & _ & (entries & _ & (node & _ & H)%bind_returns)%bind_returns)%bind_returns.
    destruct (truthy node).
    + rewrite extract_evaluate in H. injection H as <-. right. eauto.
    + injection H as <-. left. reflexivity.
  - rewrite extract_evaluate. intros [= <-]. right. eauto.
Qed.

(** X4. For a kind other than bioschemas [extract_data] never raises,
    whatever the shape of the data: it returns one block, keyed by the
    kind, with the field names of the kind's table; when the table holds
    no entry for the kind the block is empty, and the filter of the folder
    pass drops it. *)
Theorem extract_data_direct_block (tool_type : string) (data : val)
    (key_mappings : list (string * table)) :
  String.eqb tool_type "bioschemas" = false →
  ∃ block : dict,
    extract_data tool_type data key_mappings = Ok [(tool_type, VDict block)] ∧
    extract data (default [] (assoc_get key_mappings tool_type)) = Ok block ∧
    keys block = keys (default [] (assoc_get key_mappings tool_type)) ∧
    (assoc_get key_mappings tool_type = None →
     block = [] ∧ filter_truthy [(tool_type, VDict block)] = []).
Proof.
  intros Hkind.
  exists (evaluate data (default [] (assoc_get key_mappings tool_type))).
  split; [apply extract_data_direct, Hkind|].
  split; [apply extract_evaluate|]. split; [apply keys_map|].
  intros ->. split; reflexivity.
Qed.

Lemma extract_data_direct_block_witness :
  ∃ block : dict,
    extract_data "pypi" (VDict [("name", VStr "x")]) SUMMARY_DATA_KEY_MAPPINGS
      = Ok [("pypi", VDict block)] ∧
    block = [] ∧
    filter_truthy [("pypi", VDict block)] = [].
Proof.
  destruct (extract_data_direct_block "pypi" (VDict [("name", VStr "x")])
              SUMMARY_DATA_KEY_MAPPINGS eq_refl)
    as (block & Hdata & _ & _ & Hnone).
  exists block. split; [exact Hdata|]. apply Hnone. reflexivity.
Defined.

Lemma extract_data_node (m : dict) (pre post : list val) (node : val)
    (key_mappings : list (string * table)) :
  assoc_get m "@graph" = Some (VList (pre ++ node :: post)) →
  forallb other_node pre = true →
  software_node node = true →
  extract_data "bioschemas" (VDict m) key_mappings
    = Ok [("bioschemas",
           VDict (evaluate node
                    (default [] (assoc_get key_mappings "bioschemas"))))].
Proof.
  intros Hgraph Hpre Hnode. unfold extract_data.
  change (String.eqb "bioschemas" "bioschemas") with true. cbv iota.
  unfold get_default. rewrite Hgraph. simpl from_option.
  rewrite bind_Ok. simpl iter. rewrite bind_Ok.
  rewrite (next_typed_first _ _ _ Hpre Hnode), bind_Ok.
  rewrite (software_node_truthy _ Hnode), extract_evaluate. reflexivity.
Qed.

(** X5. For a linked-data document, [extract_data] evaluates the first
    node of [@graph] typed [sc:SoftwareApplication]; the nodes in front of
    it must be mappings, and what follows it is never looked at. *)
Theorem extract_data_first_node (m : dict) (pre post : list val) (node : val)
    (key_mappings : list (string * table)) :
  assoc_get m "@graph" = Some (VList (pre ++ node :: post)) →
  forallb other_node pre = true →
  software_node node = true →
  ∃ block : dict,
    extract node (default [] (assoc_get key_mappings "bioschemas")) = Ok block ∧
    extract_data "bioschemas" (VDict m) key_mappings
      = Ok [("bioschemas", VDict block)].
Proof.
  intros Hgraph Hpre Hnode.
  exists (evaluate node (default [] (assoc_get key_mappings "bioschemas"))).
  split; [apply extract_evaluate|].
  apply (extract_data_node m pre post node key_mappings); assumption.
Qed.

Lemma extract_data_first_node_witness :
  ∃ block : dict,
    extract (VDict [("@type", VStr "sc:SoftwareApplication");
                    ("sc:name", VStr "foo")])
      (summary_table "bioschemas") = Ok block ∧
    extract_data "bioschemas"
      (VDict [("@graph",
               VList [ VDict [("@type", VStr "sc:Person")];
                       VDict [("@type", VStr "sc:SoftwareApplication");
                              ("sc:name", VStr "foo")];
                       VInt 3 ])])
      SUMMARY_DATA_KEY_MAPPINGS
      = Ok [("bioschemas", VDict block)].
Proof.
  apply (extract_data_first_node
           [("@graph",
             VList [ VDict [("@type", VStr "sc:Person")];
                     VDict [("@type", VStr "sc:SoftwareApplication");
                            ("sc:name", VStr "foo")];
                     VInt 3 ])]
           [VDict [("@type", VStr "sc:Person")]] [VInt 3]
           (VDict [("@type", VStr "sc:SoftwareApplication");
                   ("sc:name", VStr "foo")])
           SUMMARY_DATA_KEY_MAPPINGS); reflexivity.
Defined.

(** X6. The ways the linked-data branch raises: a root that is no
    mapping ([AttributeError]), an [@graph] that is present but cannot be
    iterated, such as [null] ([TypeError]; the default [[]] only stands in
    for a missing key), and an item that is no mapping in front of the
    first software node ([AttributeError]). *)
Theorem extract_data_graph_raises (data : val)
    (key_mappings : list (string * table)) :
  (isinstance_dict data = false →
   extract_data "bioschemas" data key_mappings = Raise AttributeError) ∧
  (∀ m graph,
     data = VDict m →
     assoc_get m "@graph" = Some graph →
     iterable graph = false →
     extract_data "bioschemas" data key_mappings = Raise TypeError) ∧
  (∀ m graph pre entry post,
     data = VDict m →
     default (VList []) (assoc_get m "@graph") = graph →
     iter graph = Ok (pre ++ entry :: post) →
     forallb other_node pre = true →
     isinstance_dict entry = false →
     extract_data "bioschemas" data key_mappings = Raise AttributeError).
Proof.
  split; [apply extract_data_root_raises|]. split.
  - intros m graph -> Hgraph Hiter. unfold extract_data.
    change (String.eqb "bioschemas" "bioschemas") with true. cbv iota.
    unfold get_default. rewrite Hgraph. simpl from_option. rewrite bind_Ok.
    destruct graph; try discriminate; reflexivity.
  - intros m graph pre entry post -> Hgraph Hiter Hpre Hentry.
    unfold extract_data.
    change (String.eqb "bioschemas" "bioschemas") with true. cbv iota.
    unfold get_default.
    replace (from_option id (VList []) (assoc_get m "@graph")) with graph
      by (rewrite <- Hgraph; destruct (assoc_get m "@graph"); reflexivity).
    rewrite bind_Ok, Hiter, bind_Ok.
    rewrite (next_typed_stuck _ _ _ Hpre Hentry). reflexivity.
Qed.

Lemma extract_data_graph_raises_witness :
  extract_data "bioschemas" (VList []) PAGE_DATA_KEY_MAPPINGS
    = Raise AttributeError
  ∧ extract_data "bioschemas" (VDict [("@graph", VNone)])
      PAGE_DATA_KEY_MAPPINGS = Raise TypeError
  ∧ extract_data "bioschemas" (VDict [("@graph", VStr "x")])
      PAGE_DATA_KEY_MAPPINGS = Raise AttributeError.
Proof.
  split; [|split].
  - apply (proj1 (extract_data_graph_raises (VList []) PAGE_DATA_KEY_MAPPINGS)).
    reflexivity.
  - apply (proj1 (proj2 (extract_data_graph_raises
                           (VDict [("@graph", VNone)]) PAGE_DATA_KEY_MAPPINGS))
             [("@graph", VNone)] VNone); reflexivity.
  - apply (proj2 (proj2 (extract_data_graph_raises
                           (VDict [("@graph", VStr "x")])
                           PAGE_DATA_KEY_MAPPINGS))
             [("@graph", VStr "x")] (VStr "x") [] (VStr "x") []); reflexivity.
Defined.

(** ** The folder pass, further *)

Lemma for_each_app {S A} (body : S → A → res S) (xs ys : list A) (st : S) :
  for_each body (xs ++ ys) st = for_each body xs st ≫= for_each body ys.
Proof.
  revert st. induction xs as [|x xs IH]; intros st; [reflexivity|].
  simpl. destruct (body st x); [apply IH | reflexivity].
Qed.

Lemma for_each_ext {S A} (f g : S → A → res S) (xs : list A) (st : S) :
  (∀ x st, In x xs → f st x = g st x) →
  for_each f xs st = for_each g xs st.
Proof.
  revert st. induction xs as [|x xs IH]; intros st Hfg; [reflexivity|].
  simpl. rewrite (Hfg x st) by (left; reflexivity).
  destruct (g st x); [|reflexivity]. simpl. apply IH.
  intros y st' Hy. apply Hfg. right. exact Hy.
Qed.

Lemma existsb_In_ext {A} (f g : A → bool) (l : list A) :
  (∀ x, In x l → f x = g x) → existsb f l = existsb g l.
Proof.
  induction l as [|x l IH]; intros Hfg; [reflexivity|].
  simpl. rewrite (Hfg x) by (left; reflexivity). f_equal.
  apply IH. intros y Hy. apply Hfg. right. exact Hy.
Qed.

Lemma for_each_invariant {S A} (body : S → A → res S) (I : S → Prop)
    (xs : list A) (st st' : S) :
  (∀ x st0 st1, In x xs → I st0 → body st0 x = Ok st1 → I st1) →
  I st → for_each body xs st = Ok st' → I st'.
Proof.
  revert st. induction xs as [|x xs IH]; intros st Hstep Hst; simpl.
  - intros [= <-]. exact Hst.
  - intros (st1 & Hbody & Hrest)%bind_returns.
    apply (IH st1); [| |exact Hrest].
    + intros y st0 st2 Hy. apply Hstep. right. exact Hy.
    + apply (Hstep x st); [left; reflexivity | exact Hst | exact Hbody].
Qed.

Lemma Forall_dict_set (P : string * val → Prop) (d : dict) (k : string)
    (v : val) :
  Forall P d → P (k, v) → Forall P (dict_set d k v).
Proof.
  intros Hd Hkv. induction Hd as [|[k' v'] d Hk' Hd IH]; simpl.
  - constructor; [exact Hkv | constructor].
  - destruct (String.eqb k' k) eqn:E.
    + apply String.eqb_eq in E. subst k'. constructor; assumption.
    + constructor; assumption.
Qed.

Lemma Forall_dict_update (P : string * val → Prop) (d other : dict) :
  Forall P d → Forall P other → Forall P (dict_update d other).
Proof.
  unfold dict_update. intros Hd Hother. revert d Hd.
  induction Hother as [|[k v] other Hkv _ IH]; intros d Hd; [exact Hd|].
  simpl. apply IH, Forall_dict_set; assumption.
Qed.

Lemma keys_dict_set (d1 d2 : dict) (k : string) (v1 v2 : val) :
  keys d1 = keys d2 → keys (dict_set d1 k v1) = keys (dict_set d2 k v2).
Proof.
  unfold keys. revert d2.
  induction d1 as [|[k1 x1] d1 IH]; intros [|[k2 x2] d2]; simpl;
    try discriminate; [reflexivity|].
  intros [= -> Hrest]. destruct (String.eqb k2 k); simpl.
  - f_equal. exact Hrest.
  - f_equal. apply IH, Hrest.
Qed.

Lemma keys_dict_update (d1 d2 o1 o2 : dict) :
  keys d1 = keys d2 → keys o1 = keys o2 →
  keys (dict_update d1 o1) = keys (dict_update d2 o2).
Proof.
  unfold dict_update. revert d1 d2 o2.
  induction o1 as [|[k v1] o1 IH]; intros d1 d2 [|[k2 v2] o2] Hd;
    try discriminate; [intros _; exact Hd|].
  unfold keys at 1 2. simpl. intros [= <- Ho]. apply IH; [|exact Ho].
  apply keys_dict_set, Hd.
Qed.

Lemma keys_dict_set_fresh (d : dict) (k : string) (v : val) :
  ¬ In k (keys d) → keys (dict_set d k v) = keys d ++ [k].
Proof.
  unfold keys. induction d as [|[k' v'] d IH]; simpl; [reflexivity|].
  intros Hk. destruct (String.eqb k' k) eqn:E.
  - apply String.eqb_eq in E. tauto.
  - simpl. f_equal. apply IH. tauto.
Qed.

Section FolderInvariants.
Context {content : Type}.
Variables yaml_safe_load json_load : content → res val.
Variable fs : string → option content.

(** The outcomes of a turn of the loop that returns. *)
Lemma visit_Ok (folder_path : string) (st st' : acc)
    (file_name tool_type : string) :
  visit yaml_safe_load json_load fs folder_path st (file_name, tool_type)
    = Ok st' →
  (path_exists fs (join folder_path file_name) = false ∧ st' = st) ∨
  (path_exists fs (join folder_path file_name) = true ∧
   ∃ data,
     read_data yaml_safe_load json_load fs (join folder_path file_name)
       = Ok data ∧
     ((is_none data = true ∧
       st' = Acc (contents st ∪ {[ tool_type ]})
               (fetched_metadata st) (extracted_page_metadata st)) ∨
      (is_none data = false ∧
       ∃ extracted_data page_data,
         extract_data tool_type data SUMMARY_DATA_KEY_MAPPINGS
           = Ok extracted_data ∧
         extract_data tool_type data PAGE_DATA_KEY_MAPPINGS = Ok page_data ∧
         st' = Acc (contents st ∪ {[ tool_type ]})
                 (dict_update (fetched_metadata st)
                    (filter_truthy extracted_data))
                 (dict_update (extracted_page_metadata st)
                    (filter_truthy page_data))))).
Proof.
  unfold visit.
  destruct (path_exists fs (join folder_path file_name)); simpl;
    [|intros [= <-]; left; split; reflexivity].
  intros H. right. split; [reflexivity|].
  destruct (read_data _ _ _ _) as [data|e]; [|discriminate].
  exists data. split; [reflexivity|]. rewrite bind_Ok in H.
  destruct (is_none data).
  - injection H as <-. left. split; reflexivity.
  - right. split; [reflexivity|].
    destruct (extract_data _ _ SUMMARY_DATA_KEY_MAPPINGS) as [b1|];
      [|discriminate].
    destruct (extract_data _ _ PAGE_DATA_KEY_MAPPINGS) as [b2|];
      [|discriminate].
    injection H as <-. exists b1, b2. repeat split.
Qed.

(** X7. For every folder path, the candidate file of bioconda and of
    biocontainers is read by the YAML loader and that of the three other
    kinds by the JSON loader; the fallback to [None] for another extension
    is never taken. *)
Theorem read_data_by_kind (folder_path file_name tool_type : string)
    (c : content) :
  In (file_name, tool_type) (file_patterns (basename folder_path)) →
  fs (join folder_path file_name) = Some c →
  read_data yaml_safe_load json_load fs (join folder_path file_name) =
    if str_in tool_type ["bioconda"; "biocontainers"]
    then yaml_safe_load c else json_load c.
Proof.
  intros Hin Hfs.
  rewrite (read_data_candidate yaml_safe_load json_load fs _ _ _ Hin), Hfs.
  unfold loader_of. destruct (str_in tool_type _); reflexivity.
Qed.

End FolderInvariants.

Lemma read_data_by_kind_witness :
  read_data load load disk_scenario_a (join "data/foo" "foo.biotools.json")
    = load (Document biotools_record).
Proof.
  apply (read_data_by_kind load load disk_scenario_a "data/foo"
           "foo.biotools.json" "biotools" (Document biotools_record)).
  - right. right. left. reflexivity.
  - reflexivity.
Defined.

(** X8. Folder processing depends on the five candidate paths only: two
    disks that agree on them give the same result. *)
Theorem process_reads_candidates_only {content}
    (yaml_safe_load json_load : content → res val)
    (fs1 fs2 : string → option content) (folder_path : string) :
  (∀ file_name tool_type,
     In (file_name, tool_type) (file_patterns (basename folder_path)) →
     fs1 (join folder_path file_name) = fs2 (join folder_path file_name)) →
  process_files_in_folder yaml_safe_load json_load fs1 folder_path =
  process_files_in_folder yaml_safe_load json_load fs2 folder_path.
Proof.
  intros Hsame. rewrite !process_files_in_folder_eq.
  assert (Hcand : has_candidate fs1 folder_path = has_candidate fs2 folder_path).
  { unfold has_candidate. apply existsb_In_ext. intros [fn kind] Hin.
    simpl. unfold path_exists. rewrite (Hsame fn kind Hin). reflexivity. }
  rewrite Hcand. destruct (has_candidate fs2 folder_path); [|reflexivity].
  rewrite (for_each_ext
             (visit yaml_safe_load json_load fs1 folder_path)
             (visit yaml_safe_load json_load fs2 folder_path));
    [reflexivity|].
  intros [fn kind] st Hin. unfold visit, read_data, path_exists,
    parse_yaml, parse_json.
  rewrite (Hsame fn kind Hin). reflexivity.
Qed.

Lemma process_reads_candidates_only_witness :
  process_files_in_folder load load disk_scenario_a "data/foo" =
  process_files_in_folder load load disk_scenario_a_readme "data/foo".
Proof.
  apply (process_reads_candidates_only load load
           disk_scenario_a disk_scenario_a_readme "data/foo").
  intros file_name tool_type
    [[= <- <-]|[[= <- <-]|[[= <- <-]|[[= <- <-]|[[= <- <-]|[]]]]]];
    reflexivity.
Defined.

Lemma extract_data_blocks (tool_type : string) (data : val)
    (key_mappings : list (string * table)) (block : dict)
    (present : gset string) :
  extract_data tool_type data key_mappings = Ok block →
  tool_type ∈ present →
  Forall (block_of present) (filter_truthy block).
Proof.
  intros [->|(record & ->)]%extract_data_shape Hkind; [constructor|].
  destruct (evaluate record _) as [|kv block]; [constructor|].
  constructor; [|constructor]. repeat split. exact Hkind.
Qed.

Section FolderBlocks.
Context {content : Type}.
Variables yaml_safe_load json_load : content → res val.
Variable fs : string → option content.

Lemma visit_blocks (folder_path : string) (st st' : acc)
    (pattern : string * string) :
  visit yaml_safe_load json_load fs folder_path st pattern = Ok st' →
  Forall (block_of (contents st)) (fetched_metadata st) ∧
  Forall (block_of (contents st)) (extracted_page_metadata st) →
  Forall (block_of (contents st')) (fetched_metadata st') ∧
  Forall (block_of (contents st')) (extracted_page_metadata st').
Proof.
  destruct pattern as [file_name tool_type].
  intros [[_ ->]|(_ & data & _ & [[_ ->]|(_ & b1 & b2 & H1 & H2 & ->)])]%visit_Ok
    [Hf Hp]; simpl.
  - split; assumption.
  - split; (eapply Forall_impl; [eassumption|]);
      intros kv (? & ? & ?); repeat split; try assumption; set_solver.
  - split; apply Forall_dict_update;
      try (eapply extract_data_blocks; [eassumption | set_solver]);
      (eapply Forall_impl; [eassumption|]);
      intros kv (? & ? & ?); repeat split; try assumption; set_solver.
Qed.

(** X9. What [process_files_in_folder] returns: two empty dicts for a
    folder without candidate file; else two records with the folder name,
    the kinds whose file exists, and metadata in which every block is a
    non-empty mapping keyed by one of those kinds. *)
Theorem process_result_shape (folder_path : string)
    (metadata page_metadata : val) :
  process_files_in_folder yaml_safe_load json_load fs folder_path
    = Ok (metadata, page_metadata) →
  (has_candidate fs folder_path = false ∧
   metadata = VDict [] ∧ page_metadata = VDict []) ∨
  (has_candidate fs folder_path = true ∧
   ∃ fetched page : dict,
     metadata =
       metadata_record (basename folder_path)
         (kinds_present fs folder_path) fetched ∧
     page_metadata =
       page_metadata_record (basename folder_path)
         (kinds_present fs folder_path) page ∧
     Forall (block_of (kinds_present fs folder_path)) fetched ∧
     Forall (block_of (kinds_present fs folder_path)) page).
Proof.
  rewrite process_files_in_folder_eq.
  destruct (has_candidate fs folder_path).
  - intros (st & Hloop & [= <- <-])%bind_returns. right.
    split; [reflexivity|].
    assert (Hset : contents st = kinds_present fs folder_path).
    { rewrite (for_each_visit_contents _ _ _ _ _ _ _ Hloop).
      unfold kinds_present. simpl. set_solver. }
    assert (Hblocks :
      Forall (block_of (contents st)) (fetched_metadata st) ∧
      Forall (block_of (contents st)) (extracted_page_metadata st)).
    { apply (for_each_invariant _
               (λ st, Forall (block_of (contents st)) (fetched_metadata st) ∧
                      Forall (block_of (contents st))
                        (extracted_page_metadata st))
               _ (Acc ∅ [] []) st
               (λ x st0 st1 _ H0 H1, visit_blocks _ _ _ _ H1 H0)
               (conj (Forall_nil_2 _) (Forall_nil_2 _)) Hloop). }
    rewrite Hset in Hblocks. destruct Hblocks as [Hf Hp].
    exists (fetched_metadata st), (extracted_page_metadata st).
    rewrite Hset. repeat split; assumption.
  - intros [= <- <-]. left. repeat split.
Qed.

End FolderBlocks.

Lemma process_result_shape_witness :
  ∃ fetched page : dict,
    process_files_in_folder load load disk_empty_mapping "data/foo" =
      Ok (metadata_record (basename "data/foo")
            (kinds_present disk_empty_mapping "data/foo") fetched,
          page_metadata_record (basename "data/foo")
            (kinds_present disk_empty_mapping "data/foo") page) ∧
    Forall (block_of (kinds_present disk_empty_mapping "data/foo")) fetched ∧
    Forall (block_of (kinds_present disk_empty_mapping "data/foo")) page.
Proof.
  assert (H : process_files_in_folder load load disk_empty_mapping "data/foo"
              = Ok (metadata_record "foo" {[ "galaxy" ]}
                      [("galaxy", VDict (nulls (summary_table "galaxy")))],
                    page_metadata_record "foo" {[ "galaxy" ]}
                      [("galaxy", VDict (nulls (page_table "galaxy")))]))
    by (vm_compute; reflexivity).
  destruct (process_result_shape load load disk_empty_mapping "data/foo" _ _ H)
    as [(Hnone & _)|(_ & fetched & page & Hm & Hp & Hf & Hg)];
    [discriminate Hnone|].
  exists fetched, page. rewrite H, Hm, Hp. auto.
Defined.

Lemma extract_data_same_kinds (tool_type : string) (data : val)
    (extracted_data page_data : dict) :
  In tool_type
    ["bioconda"; "biocontainers"; "biotools"; "bioschemas"; "galaxy"] →
  extract_data tool_type data SUMMARY_DATA_KEY_MAPPINGS = Ok extracted_data →
  extract_data tool_type data PAGE_DATA_KEY_MAPPINGS = Ok page_data →
  keys (filter_truthy extracted_data) = keys (filter_truthy page_data).
Proof.
  intros Hkind. unfold extract_data.
  destruct (String.eqb tool_type "bioschemas") eqn:E.
  - apply String.eqb_eq in E. subst tool_type.
    destruct (get_default data "@graph" (VList [])) as [graph|];
      [|discriminate].
    rewrite !bind_Ok. destruct (iter graph) as [entries|]; [|discriminate].
    rewrite !bind_Ok.
    destruct (next_typed entries "sc:SoftwareApplication") as [node|];
      [|discriminate].
    rewrite !bind_Ok. destruct (truthy node).
    + rewrite !extract_evaluate. intros [= <-] [= <-]. reflexivity.
    + intros [= <-] [= <-]. reflexivity.
  - rewrite !extract_evaluate. intros [= <-] [= <-].
    destruct Hkind as [<-|[<-|[<-|[<-|[<-|[]]]]]];
      reflexivity || discriminate E.
Qed.

Lemma sublist_kinds_step (ks rest : list string) (k : string) :
  sublist ks rest → sublist ([] ++ ks) (k :: rest) ∧ sublist ([k] ++ ks) (k :: rest).
Proof.
  intros H. split; [apply sublist_cons, H | apply sublist_skip, H].
Qed.

Section FolderKinds.
Context {content : Type}.
Variables yaml_safe_load json_load : content → res val.
Variable fs : string → option content.

Lemma visit_same_kinds (folder_path : string) (st st' : acc)
    (pattern : string * string) :
  In pattern (file_patterns (basename folder_path)) →
  keys (fetched_metadata st) = keys (extracted_page_metadata st) →
  visit yaml_safe_load json_load fs folder_path st pattern = Ok st' →
  keys (fetched_metadata st') = keys (extracted_page_metadata st').
Proof.
  destruct pattern as [file_name tool_type]. intros Hin Hkeys
    [[_ ->]|(_ & data & _ & [[_ ->]|(_ & b1 & b2 & H1 & H2 & ->)])]%visit_Ok;
    try exact Hkeys.
  simpl. apply keys_dict_update; [exact Hkeys|].
  apply (extract_data_same_kinds tool_type data); [|assumption..].
  apply (in_map snd) in Hin. exact Hin.
Qed.

(** X10. The summary record and the page record of a folder hold blocks
    for the same kinds, in the same order. *)
Theorem same_kinds_in_both_records (folder_path : string)
    (metadata page_metadata : val) :
  has_candidate fs folder_path = true →
  process_files_in_folder yaml_safe_load json_load fs folder_path
    = Ok (metadata, page_metadata) →
  ∃ fetched page : dict,
    getitem metadata "fetched_metadata" = Ok (VDict fetched) ∧
    getitem page_metadata "page_metadata" = Ok (VDict page) ∧
    keys fetched = keys page.
Proof.
  intros Hcand. rewrite process_files_in_folder_eq, Hcand.
  intros (st & Hloop & [= <- <-])%bind_returns.
  exists (fetched_metadata st), (extracted_page_metadata st).
  split; [reflexivity|]. split; [reflexivity|].
  apply (for_each_invariant _
           (λ st, keys (fetched_metadata st) = keys (extracted_page_metadata st))
           _ (Acc ∅ [] []) st
           (λ x st0 st1 Hx H0 H1, visit_same_kinds _ _ _ _ Hx H0 H1)
           eq_refl Hloop).
Qed.

Lemma visit_appends (folder_path : string) (st st' : acc)
    (file_name tool_type : string) :
  ¬ In tool_type (keys (fetched_metadata st)) →
  ¬ In tool_type (keys (extracted_page_metadata st)) →
  visit yaml_safe_load json_load fs folder_path st (file_name, tool_type)
    = Ok st' →
  (keys (fetched_metadata st') = keys (fetched_metadata st) ∨
   keys (fetched_metadata st') = keys (fetched_metadata st) ++ [tool_type]) ∧
  (keys (extracted_page_metadata st') = keys (extracted_page_metadata st) ∨
   keys (extracted_page_metadata st')
     = keys (extracted_page_metadata st) ++ [tool_type]).
Proof.
  intros Hf Hp
    [[_ ->]|(_ & data & _ & [[_ ->]|(_ & b1 & b2 & H1 & H2 & ->)])]%visit_Ok;
    [tauto | simpl; tauto |].
  simpl.
  apply extract_data_shape in H1 as [->|(r1 & ->)];
    apply extract_data_shape in H2 as [->|(r2 & ->)];
    split;
    try (left; reflexivity);
    match goal with
    | |- context [filter_truthy [(_, VDict ?b)]] =>
        destruct b; [left; reflexivity|]
    end;
    right; apply keys_dict_set_fresh; assumption.
Qed.

Lemma for_each_visit_order (folder_path : string)
    (patterns : list (string * string)) (st st' : acc) :
  NoDup (map snd patterns) →
  (∀ k, In k (map snd patterns) →
        ¬ In k (keys (fetched_metadata st)) ∧
        ¬ In k (keys (extracted_page_metadata st))) →
  for_each (visit yaml_safe_load json_load fs folder_path) patterns st = Ok st' →
  ∃ kf kp,
    keys (fetched_metadata st') = keys (fetched_metadata st) ++ kf ∧
    keys (extracted_page_metadata st')
      = keys (extracted_page_metadata st) ++ kp ∧
    sublist kf (map snd patterns) ∧ sublist kp (map snd patterns).
Proof.
  revert st. induction patterns as [|[fn k] patterns IH]; intros st Hnodup Hfresh.
  - intros [= <-]. exists [], []. rewrite !app_nil_r. repeat split; constructor.
  - simpl. intros (st1 & Hvisit & Hrest)%bind_returns.
    simpl in Hnodup. apply NoDup_cons in Hnodup as [Hk Hnodup].
    rewrite list_elem_of_In in Hk.
    destruct (Hfresh k) as [Hkf Hkp]; [left; reflexivity|].
    destruct (visit_appends _ _ _ _ _ Hkf Hkp Hvisit) as [Hf Hp].
    destruct (IH st1 Hnodup) as (kf & kp & Ef & Ep & Sf & Sp); [|exact Hrest|].
    { intros k' Hk'. destruct (Hfresh k') as [Hf' Hp']; [right; exact Hk'|].
      assert (k' ≠ k) by (intros ->; contradiction).
      destruct Hf as [->| ->], Hp as [->| ->]; rewrite ?in_app_iff; simpl;
        intuition congruence. }
    destruct (sublist_kinds_step kf (map snd patterns) k Sf) as [Sf0 Sf1].
    destruct (sublist_kinds_step kp (map snd patterns) k Sp) as [Sp0 Sp1].
    rewrite Ef, Ep.
    destruct Hf as [->| ->], Hp as [->| ->]; rewrite <- ?app_assoc;
      [ exists kf, kp | exists kf, ([k] ++ kp)
      | exists ([k] ++ kf), kp | exists ([k] ++ kf), ([k] ++ kp) ];
      repeat split; assumption.
Qed.

(** X11. The blocks of a record come in the fixed order of the source
    kinds: bioconda, biocontainers, biotools, bioschemas, galaxy. *)
Theorem blocks_follow_kind_order (folder_path : string)
    (metadata page_metadata : val) :
  has_candidate fs folder_path = true →
  process_files_in_folder yaml_safe_load json_load fs folder_path
    = Ok (metadata, page_metadata) →
  ∃ fetched page : dict,
    getitem metadata "fetched_metadata" = Ok (VDict fetched) ∧
    getitem page_metadata "page_metadata" = Ok (VDict page) ∧
    sublist (keys fetched)
      ["bioconda"; "biocontainers"; "biotools"; "bioschemas"; "galaxy"] ∧
    sublist (keys page)
      ["bioconda"; "biocontainers"; "biotools"; "bioschemas"; "galaxy"].
Proof.
  intros Hcand. rewrite process_files_in_folder_eq, Hcand.
  intros (st & Hloop & [= <- <-])%bind_returns.
  exists (fetched_metadata st), (extracted_page_metadata st).
  split; [reflexivity|]. split; [reflexivity|].
  destruct (for_each_visit_order folder_path
              (file_patterns (basename folder_path)) (Acc ∅ [] []) st
              (file_patterns_NoDup fs _))
    as (kf & kp & Ef & Ep & Sf & Sp); [simpl; tauto | exact Hloop |].
  simpl in Ef, Ep. rewrite Ef, Ep. split; assumption.
Qed.

End FolderKinds.

Lemma candidate_name_unique (folder_name file_name file_name' kind : string) :
  In (file_name, kind) (file_patterns folder_name) →
  In (file_name', kind) (file_patterns folder_name) →
  file_name = file_name'.
Proof.
  intros [[= <- <-]|[[= <- <-]|[[= <- <-]|[[= <- <-]|[[= <- <-]|[]]]]]]
    [[= <-]|[[= <-]|[[= <-]|[[= <-]|[[= <-]|[]]]]]]; reflexivity.
Qed.

Section FolderFiles.
Context {content : Type}.
Variables yaml_safe_load json_load : content → res val.
Variable fs : string → option content.

(** X12. A candidate file that reads as [None] puts its kind in
    [contents] and no block for it in either record. *)
Theorem null_file_adds_no_block (folder_path file_name tool_type : string)
    (metadata page_metadata : val) :
  In (file_name, tool_type) (file_patterns (basename folder_path)) →
  path_exists fs (join folder_path file_name) = true →
  read_data yaml_safe_load json_load fs (join folder_path file_name)
    = Ok VNone →
  process_files_in_folder yaml_safe_load json_load fs folder_path
    = Ok (metadata, page_metadata) →
  ∃ fetched page : dict,
    getitem metadata "contents"
      = Ok (list_of_set (kinds_present fs folder_path)) ∧
    tool_type ∈ kinds_present fs folder_path ∧
    getitem metadata "fetched_metadata" = Ok (VDict fetched) ∧
    getitem page_metadata "page_metadata" = Ok (VDict page) ∧
    assoc_get fetched tool_type = None ∧
    assoc_get page tool_type = None.
Proof.
  intros Hin Hex Hnull.
  assert (Hsome : is_Some (fs (join folder_path file_name)))
    by (apply (bool_decide_eq_true_1 _ Hex)).
  destruct Hsome as [c Hfs].
  rewrite process_files_in_folder_eq,
    (has_candidate_true fs _ _ _ _ Hin Hfs).
  intros (st & Hloop & [= <- <-])%bind_returns.
  exists (fetched_metadata st), (extracted_page_metadata st).
  assert (Hset : contents st = kinds_present fs folder_path).
  { rewrite (for_each_visit_contents _ _ _ _ _ _ _ Hloop).
    unfold kinds_present. simpl. set_solver. }
  split; [simpl; rewrite Hset; reflexivity|].
  split; [apply elem_of_kinds_present; eauto|].
  split; [reflexivity|]. split; [reflexivity|].
  apply (for_each_invariant
           (visit yaml_safe_load json_load fs folder_path)
           (λ st, assoc_get (fetched_metadata st) tool_type = None ∧
                  assoc_get (extracted_page_metadata st) tool_type = None)
           (file_patterns (basename folder_path)) (Acc ∅ [] []) st);
    [|split; reflexivity|exact Hloop].
  intros [fn kind] st0 st1 Hx [Hf Hp] Hvisit.
  destruct (String.eqb kind tool_type) eqn:E.
  - apply String.eqb_eq in E. subst kind.
    rewrite (candidate_name_unique _ _ _ _ Hx Hin) in Hvisit.
    apply visit_Ok in Hvisit
      as [[_ ->]|(_ & data & Hdata & [[_ ->]|(Hsome & _)])];
      [split; assumption..|].
    rewrite Hnull in Hdata. injection Hdata as <-. discriminate Hsome.
  - apply String.eqb_neq in E.
    destruct (visit_keeps_other _ _ _ _ _ _ _ tool_type Hvisit) as [-> ->];
      [intros ->; apply E; reflexivity | split; assumption].
Qed.

(** X13. When the linked-data file of a folder has a software node, the
    block of bioschemas in either record is the evaluation of the first
    such node under the bioschemas table. *)
Theorem software_node_block (folder_path : string) (c : content) (m : dict)
    (pre post : list val) (node metadata page_metadata : val) :
  fs (join folder_path (basename folder_path +:+ ".bioschemas.jsonld"))
    = Some c →
  json_load c = Ok (VDict m) →
  assoc_get m "@graph" = Some (VList (pre ++ node :: post)) →
  forallb other_node pre = true →
  software_node node = true →
  process_files_in_folder yaml_safe_load json_load fs folder_path
    = Ok (metadata, page_metadata) →
  ∃ fetched page summary_block page_block : dict,
    getitem metadata "fetched_metadata" = Ok (VDict fetched) ∧
    getitem page_metadata "page_metadata" = Ok (VDict page) ∧
    extract node (summary_table "bioschemas") = Ok summary_block ∧
    extract node (page_table "bioschemas") = Ok page_block ∧
    assoc_get fetched "bioschemas" = Some (VDict summary_block) ∧
    assoc_get page "bioschemas" = Some (VDict page_block).
Proof.
  intros Hfs Hload Hgraph Hpre Hnode.
  assert (Hin : In (basename folder_path +:+ ".bioschemas.jsonld", "bioschemas")
                  (file_patterns (basename folder_path)))
    by (simpl; tauto).
  rewrite process_files_in_folder_eq,
    (has_candidate_true fs _ _ _ _ Hin Hfs).
  intros (st & Hloop & [= <- <-])%bind_returns.
  exists (fetched_metadata st), (extracted_page_metadata st),
    (evaluate node (summary_table "bioschemas")),
    (evaluate node (page_table "bioschemas")).
  split; [reflexivity|]. split; [reflexivity|].
  split; [apply extract_evaluate|]. split; [apply extract_evaluate|].
  apply (for_each_visit_at yaml_safe_load json_load fs folder_path
           (file_patterns (basename folder_path)) (Acc ∅ [] []) st
           (basename folder_path +:+ ".bioschemas.jsonld", "bioschemas")
           (λ st, assoc_get (fetched_metadata st) "bioschemas"
                    = Some (VDict (evaluate node (summary_table "bioschemas"))) ∧
                  assoc_get (extracted_page_metadata st) "bioschemas"
                    = Some (VDict (evaluate node (page_table "bioschemas"))))
           (file_patterns_NoDup fs _) Hin); [| |exact Hloop].
  - intros st0 st1.
    rewrite (visit_candidate yaml_safe_load json_load fs _ _ _ _ Hin), Hfs.
    change (loader_of yaml_safe_load json_load "bioschemas" c)
      with (json_load c).
    rewrite Hload, bind_Ok. change (is_none (VDict m)) with false. cbv iota.
    rewrite !(extract_data_node m pre post node) by assumption.
    rewrite !bind_Ok. intros [= <-]. simpl fetched_metadata.
    simpl extracted_page_metadata.
    split; apply assoc_get_dict_set_eq.
  - simpl. intros st0 st1 [H1 H2] -> ->. split; assumption.
Qed.

End FolderFiles.

(** ** The driver, further *)

Section DriverComposition.
Context {content : Type}.
Variables yaml_safe_load json_load : content → res val.
Variable fs : string → option content.

(** What one root adds to the output does not depend on what is there. *)
Lemma main_body_shift (data_dir root : string) (out : output) :
  main_body yaml_safe_load json_load fs data_dir out root =
    o ← main_body yaml_safe_load json_load fs data_dir (Output [] []) root;
    Ok (Output (combined_metadata out ++ combined_metadata o)
          (saved out ++ saved o)).
Proof.
  unfold main_body. destruct (negb (String.eqb root data_dir)).
  - destruct (process_files_in_folder _ _ _ root) as [[m p]|e]; [|reflexivity].
    simpl. destruct (negb (truthy m) || negb (truthy p)).
    + simpl. rewrite !app_nil_r. destruct out; reflexivity.
    + destruct (getitem p "tool_name"); reflexivity.
  - simpl. rewrite !app_nil_r. destruct out; reflexivity.
Qed.

Lemma for_each_main_body_shift (data_dir : string) (walk : list string)
    (out : output) :
  for_each (main_body yaml_safe_load json_load fs data_dir) walk out =
    o ← for_each (main_body yaml_safe_load json_load fs data_dir) walk
          (Output [] []);
    Ok (Output (combined_metadata out ++ combined_metadata o)
          (saved out ++ saved o)).
Proof.
  revert out. induction walk as [|root walk IH]; intros out.
  - simpl. rewrite !app_nil_r. destruct out; reflexivity.
  - simpl. rewrite (main_body_shift data_dir root out).
    destruct (main_body _ _ _ data_dir (Output [] []) root) as [o1|e];
      [|reflexivity].
    simpl. rewrite (IH (Output _ _)), (IH o1).
    destruct (for_each _ walk (Output [] [])) as [o2|e]; [|reflexivity].
    simpl. rewrite !app_assoc. reflexivity.
Qed.

Lemma main_Ok (data_dir : string) (walk : list string) (out : output) :
  main yaml_safe_load json_load fs data_dir walk = Ok out →
  ∃ pages,
    for_each (main_body yaml_safe_load json_load fs data_dir) walk
      (Output [] []) = Ok (Output (combined_metadata out) pages) ∧
    saved out =
      pages ++ [("combined_metadata.json", VList (combined_metadata out))].
Proof.
  unfold main. intros ([combined pages] & Hloop & [= <-])%bind_returns.
  exists pages. split; [exact Hloop | reflexivity].
Qed.

(** X14. Folders are processed independently: when [main] returns on two
    walks, on their concatenation it returns the two lists of summary
    records and the two lists of page files, one after the other, followed
    by the combined file. *)
Theorem main_app (data_dir : string) (walk1 walk2 : list string)
    (out1 out2 : output) :
  main yaml_safe_load json_load fs data_dir walk1 = Ok out1 →
  main yaml_safe_load json_load fs data_dir walk2 = Ok out2 →
  ∃ pages1 pages2,
    saved out1 =
      pages1 ++ [("combined_metadata.json", VList (combined_metadata out1))] ∧
    saved out2 =
      pages2 ++ [("combined_metadata.json", VList (combined_metadata out2))] ∧
    main yaml_safe_load json_load fs data_dir (walk1 ++ walk2) =
      Ok (Output (combined_metadata out1 ++ combined_metadata out2)
            (pages1 ++ pages2 ++
               [("combined_metadata.json",
                 VList (combined_metadata out1 ++ combined_metadata out2))])).
Proof.
  intros (pages1 & H1 & S1)%main_Ok (pages2 & H2 & S2)%main_Ok.
  exists pages1, pages2. split; [exact S1|]. split; [exact S2|].
  unfold main. rewrite for_each_app, H1, bind_Ok.
  rewrite for_each_main_body_shift, H2. simpl.
  rewrite <- app_assoc. reflexivity.
Qed.

(** X15. The exception of the first folder whose processing raises ends
    the run: [main] raises it, whatever follows in the walk. *)
Theorem main_raises_at (data_dir : string) (before after : list string)
    (root : string) (out : output) (e : exn) :
  main yaml_safe_load json_load fs data_dir before = Ok out →
  String.eqb root data_dir = false →
  process_files_in_folder yaml_safe_load json_load fs root = Raise e →
  main yaml_safe_load json_load fs data_dir (before ++ root :: after) = Raise e.
Proof.
  intros (pages & Hloop & _)%main_Ok Hroot Hprocess.
  assert (Hbody : ∀ o, main_body yaml_safe_load json_load fs data_dir o root
                       = Raise e).
  { intros o. unfold main_body. rewrite Hroot, Hprocess. reflexivity. }
  unfold main. rewrite for_each_app, Hloop, bind_Ok. cbn [for_each].
  rewrite Hbody. reflexivity.
Qed.

End DriverComposition.

Lemma same_kinds_in_both_records_witness :
  ∃ (metadata page_metadata : val) (fetched page : dict),
    process_files_in_folder load load disk_two "data/bar"
      = Ok (metadata, page_metadata) ∧
    getitem metadata "fetched_metadata" = Ok (VDict fetched) ∧
    getitem page_metadata "page_metadata" = Ok (VDict page) ∧
    keys fetched = ["bioconda"; "galaxy"] ∧
    keys fetched = keys page.
Proof.
  destruct (process_files_in_folder load load disk_two "data/bar")
    as [[metadata page_metadata]|e] eqn:H; [|vm_compute in H; discriminate H].
  destruct (same_kinds_in_both_records load load disk_two "data/bar"
              metadata page_metadata eq_refl H)
    as (fetched & page & Hf & Hp & Hkeys).
  exists metadata, page_metadata, fetched, page.
  repeat split; try assumption.
  vm_compute in H. injection H as <- <-. injection Hf as <-. reflexivity.
Defined.

Lemma blocks_follow_kind_order_witness :
  ∃ (metadata page_metadata : val) (fetched page : dict),
    process_files_in_folder load load disk_two "data/bar"
      = Ok (metadata, page_metadata) ∧
    getitem metadata "fetched_metadata" = Ok (VDict fetched) ∧
    getitem page_metadata "page_metadata" = Ok (VDict page) ∧
    sublist (keys fetched)
      ["bioconda"; "biocontainers"; "biotools"; "bioschemas"; "galaxy"] ∧
    sublist (keys page)
      ["bioconda"; "biocontainers"; "biotools"; "bioschemas"; "galaxy"].
Proof.
  destruct (process_files_in_folder load load disk_two "data/bar")
    as [[metadata page_metadata]|e] eqn:H; [|vm_compute in H; discriminate H].
  destruct (blocks_follow_kind_order load load disk_two "data/bar"
              metadata page_metadata eq_refl H)
    as (fetched & page & Hf & Hp & Sf & Sp).
  exists metadata, page_metadata, fetched, page. auto.
Defined.

Lemma null_file_adds_no_block_witness :
  ∃ fetched page : dict,
    "galaxy" ∈ kinds_present disk_null "data/foo" ∧
    getitem (metadata_record "foo" {[ "galaxy" ]} []) "fetched_metadata"
      = Ok (VDict fetched) ∧
    getitem (page_metadata_record "foo" {[ "galaxy" ]} []) "page_metadata"
      = Ok (VDict page) ∧
    assoc_get fetched "galaxy" = None ∧
    assoc_get page "galaxy" = None.
Proof.
  destruct (null_file_adds_no_block load load disk_null "data/foo"
              "foo.galaxy.json" "galaxy"
              (metadata_record "foo" {[ "galaxy" ]} [])
              (page_metadata_record "foo" {[ "galaxy" ]} []))
    as (fetched & page & _ & Hin & Hf & Hp & Nf & Np).
  - right. right. right. right. left. reflexivity.
  - reflexivity.
  - reflexivity.
  - vm_compute. reflexivity.
  - exists fetched, page. auto.
Defined.

Lemma software_node_block_witness :
  ∃ (metadata page_metadata : val) (fetched page summary_block : dict),
    process_files_in_folder load load disk_software "data/foo"
      = Ok (metadata, page_metadata) ∧
    getitem metadata "fetched_metadata" = Ok (VDict fetched) ∧
    getitem page_metadata "page_metadata" = Ok (VDict page) ∧
    assoc_get fetched "bioschemas" = Some (VDict summary_block) ∧
    summary_block
      = [("name", VStr "foo"); ("license", VNone); ("version", VNone)].
Proof.
  destruct (process_files_in_folder load load disk_software "data/foo")
    as [[metadata page_metadata]|e] eqn:H; [|vm_compute in H; discriminate H].
  destruct (software_node_block load load disk_software "data/foo"
              (Document (VDict software_graph)) software_graph
              [VDict [("@type", VStr "sc:Person")]] [VInt 3]
              (VDict [("@type", VStr "sc:SoftwareApplication");
                      ("sc:name", VStr "foo")])
              metadata page_metadata eq_refl eq_refl eq_refl eq_refl eq_refl H)
    as (fetched & page & sb & pb & Hf & Hp & Hs & _ & Hfs & _).
  exists metadata, page_metadata, fetched, page, sb.
  repeat split; try assumption.
  vm_compute in Hs. injection Hs as <-. reflexivity.
Defined.

Lemma main_app_witness :
  ∃ (out1 out2 : output) (pages1 pages2 : list (string * val)),
    main load load disk_two "data" ["data"; "data/bar"] = Ok out1 ∧
    main load load disk_two "data" ["data/foo"] = Ok out2 ∧
    length (combined_metadata out1) = 1 ∧
    length (combined_metadata out2) = 1 ∧
    main load load disk_two "data" (["data"; "data/bar"] ++ ["data/foo"]) =
      Ok (Output (combined_metadata out1 ++ combined_metadata out2)
            (pages1 ++ pages2 ++
               [("combined_metadata.json",
                 VList (combined_metadata out1 ++ combined_metadata out2))])).
Proof.
  destruct (main load load disk_two "data" ["data"; "data/bar"])
    as [out1|e] eqn:H1; [|vm_compute in H1; discriminate H1].
  destruct (main load load disk_two "data" ["data/foo"])
    as [out2|e] eqn:H2; [|vm_compute in H2; discriminate H2].
  destruct (main_app load load disk_two "data" ["data"; "data/bar"]
              ["data/foo"] out1 out2 H1 H2)
    as (pages1 & pages2 & _ & _ & H).
  exists out1, out2, pages1, pages2.
  split; [reflexivity|]. split; [reflexivity|].
  split; [vm_compute in H1; injection H1 as <-; reflexivity|].
  split; [vm_compute in H2; injection H2 as <-; reflexivity|]. exact H.
Defined.

Lemma main_raises_at_witness :
  main load load disk_two "data" (["data"; "data/bar"] ++ "data/baz" :: ["data/foo"])
    = Raise ParseError.
Proof.
  destruct (main load load disk_two "data" ["data"; "data/bar"])
    as [out|e] eqn:H; [|vm_compute in H; discriminate H].
  apply (main_raises_at load load disk_two "data" ["data"; "data/bar"]
           ["data/foo"] "data/baz" out ParseError H); reflexivity.
Defined.

(** ** Blocks of the kinds read directly *)

Section ParsedBlocks.
Context {content : Type}.
Variables yaml_safe_load json_load : content → res val.
Variable fs : string → option content.



End ParsedBlocks.

